(** * Indexer service: the subgraph query endpoint

    A shallow embedding of the request handler that
    [packages/indexer-service/src/server/index.ts] registers for
    [POST /subgraphs/id/:id], together with the library functions it calls
    on the request body ([Buffer.prototype.toString], [TextEncoder.encode],
    [utils.keccak256]).

    The handler is effectful: it logs, calls the query processor, and
    writes to the response object.  It is embedded in a small trace and
    exception monad, so that "how many times was the processor called" and
    "how many responses were sent" are questions about the trace of one
    run, and "did an exception leave the handler" is a question about its
    outcome.

    What is modelled of the libraries is what comes back into the handler:
    the value of [req.body] that [bodyParser.raw] leaves (a [Buffer], or
    the empty object when it did not read the body), and the exception
    that [res.send] throws when Node refuses the status code.  A response
    in a trace is a completed call
    [res.status(s).contentType(t).send(b)] with its arguments; what
    Express then writes on the wire is not modelled.

    Standing assumptions: the promise returned by the query processor
    settles; what the processor throws is an error object with a message
    and an optional numeric status; the payload can be serialised. *)

From Stdlib Require Import List String Ascii NArith ZArith Lia Bool.
From Stdlib Require Import DecimalString.
From Stdlib.Strings Require Import Byte.
Import ListNotations.

Set Implicit Arguments.
Local Open Scope N_scope.

(* ===================================================================== *)
(** ** Bytes *)
(* ===================================================================== *)

(** A [Buffer] and a [Uint8Array] are sequences of bytes. *)
Definition bytes := list byte.

(** The byte whose value is [n mod 256]. *)
Definition byte_of_N (n : N) : byte :=
  match Byte.of_N (n mod 256) with
  | Some b => b
  | None => x00
  end.

(* ===================================================================== *)
(** ** UTF-8: [Buffer.prototype.toString] and [TextEncoder.encode] *)
(* ===================================================================== *)

Module Utf8.

(** A JavaScript string is a sequence of UTF-16 code units.  The strings
    that occur as [query] come out of the UTF-8 decoder, which never
    produces an unpaired surrogate; they are represented by their sequence
    of code points. *)
Definition codepoint := N.
Definition jsstring := list codepoint.

Definition REPLACEMENT : codepoint := 0xFFFD.

Definition is_surrogate (c : codepoint) : bool :=
  (0xD800 <=? c) && (c <=? 0xDFFF).

(** A Unicode scalar value: a code point that is not a surrogate. *)
Definition scalar (c : codepoint) : Prop :=
  c < 0xD800 \/ (0xDFFF < c /\ c <= 0x10FFFF).

(** *** Encoder ([new TextEncoder().encode(s)])

    Each code point is written on one to four bytes; an unpaired surrogate
    is written as U+FFFD. *)
Definition encode_codepoint (c : codepoint) : bytes :=
  if c <? 0x80 then
    [byte_of_N c]
  else if c <? 0x800 then
    [byte_of_N (N.lor 0xC0 (N.shiftr c 6));
     byte_of_N (N.lor 0x80 (N.land c 0x3F))]
  else if c <? 0x10000 then
    if is_surrogate c then
      [xef; xbf; xbd]
    else
      [byte_of_N (N.lor 0xE0 (N.shiftr c 12));
       byte_of_N (N.lor 0x80 (N.land (N.shiftr c 6) 0x3F));
       byte_of_N (N.lor 0x80 (N.land c 0x3F))]
  else
    [byte_of_N (N.lor 0xF0 (N.shiftr c 18));
     byte_of_N (N.lor 0x80 (N.land (N.shiftr c 12) 0x3F));
     byte_of_N (N.lor 0x80 (N.land (N.shiftr c 6) 0x3F));
     byte_of_N (N.lor 0x80 (N.land c 0x3F))].

Definition encode (s : jsstring) : bytes :=
  flat_map encode_codepoint s.

(** *** Decoder ([buf.toString()], that is [buf.toString('utf8')])

    The decoder is the usual state machine: [needed] continuation bytes are
    still expected, the next one within [lower..upper], and [acc] holds the
    bits read so far.  An ill-formed sequence is replaced by U+FFFD and the
    offending byte is read again from the initial state.  Nothing is
    stripped: a leading byte order mark is kept. *)
Record dstate := mkDState {
  needed : nat;
  acc : N;
  lower : N;
  upper : N
}.

Definition dinit : dstate := mkDState 0%nat 0 0x80 0xBF.

(** A byte read in the initial state. *)
Definition lead (b : N) : list codepoint * dstate :=
  if b <=? 0x7F then ([b], dinit)
  else if (0xC2 <=? b) && (b <=? 0xDF) then
    ([], mkDState 1%nat (N.land b 0x1F) 0x80 0xBF)
  else if (0xE0 <=? b) && (b <=? 0xEF) then
    ([], mkDState 2%nat (N.land b 0xF)
           (if b =? 0xE0 then 0xA0 else 0x80)
           (if b =? 0xED then 0x9F else 0xBF))
  else if (0xF0 <=? b) && (b <=? 0xF4) then
    ([], mkDState 3%nat (N.land b 0x7)
           (if b =? 0xF0 then 0x90 else 0x80)
           (if b =? 0xF4 then 0x8F else 0xBF))
  else ([REPLACEMENT], dinit).

Definition dstep (st : dstate) (b : N) : list codepoint * dstate :=
  match needed st with
  | O => lead b
  | S n =>
      if (lower st <=? b) && (b <=? upper st) then
        let a := N.lor (N.shiftl (acc st) 6) (N.land b 0x3F) in
        match n with
        | O => ([a], dinit)
        | S _ => ([], mkDState n a 0x80 0xBF)
        end
      else
        let '(out, st') := lead b in (REPLACEMENT :: out, st')
  end.

Fixpoint decode_from (st : dstate) (bs : bytes) : jsstring :=
  match bs with
  | [] => match needed st with O => [] | S _ => [REPLACEMENT] end
  | b :: bs' =>
      let '(out, st') := dstep st (Byte.to_N b) in
      out ++ decode_from st' bs'
  end.

Definition decode (bs : bytes) : jsstring := decode_from dinit bs.

(** Well-formed UTF-8: the encodings of sequences of scalar values. *)
Definition well_formed (bs : bytes) : Prop :=
  exists s : jsstring, Forall scalar s /\ bs = encode s.

End Utf8.

(* ===================================================================== *)
(** ** Keccak-256: [utils.keccak256] *)
(* ===================================================================== *)

(** The handler is stated for an arbitrary hash function.  This module is
    the function the service links against, Keccak-256 with the original
    padding, used where a statement needs concrete digests. *)
Module Keccak.

Definition lane := N.
Definition mask64 : N := 0xFFFFFFFFFFFFFFFF.

Definition rotl64 (x : lane) (n : N) : lane :=
  N.lor (N.land (N.shiftl x n) mask64) (N.shiftr x (64 - n)).

Definition not64 (x : lane) : lane := N.lxor x mask64.

(** The state is 25 lanes, [A[x,y]] at index [x + 5*y]. *)
Definition state := list lane.

Definition get (A : state) (x y : nat) : lane :=
  nth ((x mod 5) + 5 * (y mod 5))%nat A 0.

Definition idx5 : list nat := [0; 1; 2; 3; 4]%nat.

Definition build (f : nat -> nat -> lane) : state :=
  flat_map (fun y => map (fun x => f x y) idx5) idx5.

Definition round_constants : list lane :=
  [ 0x0000000000000001; 0x0000000000008082; 0x800000000000808A;
    0x8000000080008000; 0x000000000000808B; 0x0000000080000001;
    0x8000000080008081; 0x8000000000008009; 0x000000000000008A;
    0x0000000000000088; 0x0000000080008009; 0x000000008000000A;
    0x000000008000808B; 0x800000000000008B; 0x8000000000008089;
    0x8000000000008003; 0x8000000000008002; 0x8000000000000080;
    0x000000000000800A; 0x800000008000000A; 0x8000000080008081;
    0x8000000000008080; 0x0000000080000001; 0x8000000080008008 ].

(** Rotation offsets [r[x][y]], row [x], column [y]. *)
Definition rotation_offsets : list (list N) :=
  [ [ 0; 36;  3; 41; 18];
    [ 1; 44; 10; 45;  2];
    [62;  6; 43; 15; 61];
    [28; 55; 25; 21; 56];
    [27; 20; 39;  8; 14] ].

Definition offset (x y : nat) : N :=
  nth y (nth x rotation_offsets []) 0.

Definition theta (A : state) : state :=
  let C x := N.lxor (get A x 0) (N.lxor (get A x 1) (N.lxor (get A x 2)
               (N.lxor (get A x 3) (get A x 4)))) in
  let D x := N.lxor (C (x + 4)%nat) (rotl64 (C (x + 1)%nat) 1) in
  build (fun x y => N.lxor (get A x y) (D x)).

(** [B[y, 2x+3y] = rot(A[x,y], r[x,y])]; read at [(X,Y)], the source is
    [x = X + 3Y], [y = X]. *)
Definition rho_pi (A : state) : state :=
  build (fun X Y =>
    let x := ((X + 3 * Y) mod 5)%nat in
    rotl64 (get A x X) (offset x X)).

Definition chi (B : state) : state :=
  build (fun x y =>
    N.lxor (get B x y)
           (N.land (not64 (get B (x + 1) y)) (get B (x + 2) y))).

Definition iota (rc : lane) (A : state) : state :=
  match A with
  | [] => []
  | a :: A' => N.lxor a rc :: A'
  end.

Definition round (A : state) (rc : lane) : state :=
  iota rc (chi (rho_pi (theta A))).

Definition keccak_f (A : state) : state :=
  fold_left round round_constants A.

(** Sponge with rate 136 bytes (capacity 512 bits) and the original
    Keccak padding [pad10*1] with domain byte [0x01]. *)
Definition rate : nat := 136.

Definition pad (m : bytes) : bytes :=
  let q := (rate - (List.length m mod rate))%nat in
  match q with
  | 1%nat => (m ++ [x81])%list
  | _ => (m ++ [x01] ++ repeat x00 (q - 2) ++ [x80])%list
  end.

Fixpoint lane_of_bytes (bs : bytes) : lane :=
  match bs with
  | [] => 0
  | b :: bs' => Byte.to_N b + 256 * lane_of_bytes bs'
  end.

Fixpoint lanes_of_bytes (n : nat) (bs : bytes) : list lane :=
  match n with
  | O => []
  | S n' => lane_of_bytes (firstn 8 bs) :: lanes_of_bytes n' (skipn 8 bs)
  end.

Fixpoint xor_into (A : state) (ls : list lane) : state :=
  match A, ls with
  | a :: A', l :: ls' => N.lxor a l :: xor_into A' ls'
  | _, _ => A
  end.

Fixpoint absorb (blocks : nat) (A : state) (bs : bytes) : state :=
  match blocks with
  | O => A
  | S k =>
      absorb k (keccak_f (xor_into A (lanes_of_bytes 17 (firstn rate bs))))
             (skipn rate bs)
  end.

Fixpoint bytes_of_lane (n : nat) (l : lane) : bytes :=
  match n with
  | O => []
  | S n' => byte_of_N l :: bytes_of_lane n' (l / 256)
  end.

Definition digest (m : bytes) : bytes :=
  let p := pad m in
  let A := absorb (List.length p / rate)%nat (repeat 0 25) p in
  flat_map (bytes_of_lane 8) (firstn 4 A).

Definition hex_digit (n : N) : ascii :=
  nth (N.to_nat n)
      (list_ascii_of_string "0123456789abcdef") "0"%char.

Fixpoint hexlify (bs : bytes) : string :=
  match bs with
  | [] => EmptyString
  | b :: bs' =>
      let n := Byte.to_N b in
      String (hex_digit (n / 16)) (String (hex_digit (n mod 16)) (hexlify bs'))
  end.

(** [utils.keccak256(data)]: the digest as a hex string with prefix 0x. *)
Definition keccak256 (data : bytes) : string :=
  ("0x" ++ hexlify (digest data))%string.

End Keccak.
(* ===================================================================== *)
(** ** JavaScript values the handler manipulates *)
(* ===================================================================== *)

Local Open Scope string_scope.

(** A [status] field: a number.  Integers and [NaN] are all the handler can
    tell apart. *)
Inductive JsNumber :=
| JNum (z : Z)
| JNaN.

(** Truthiness of a number: [0] and [NaN] are falsy. *)
Definition truthy (n : JsNumber) : bool :=
  match n with
  | JNum z => negb (z =? 0)%Z
  | JNaN => false
  end.

(** [v || d] where [v] is an optional number ([None] is [undefined]). *)
Definition or_default (v : option JsNumber) (d : JsNumber) : JsNumber :=
  match v with
  | Some n => if truthy n then n else d
  | None => d
  end.

(** An entry of [req.headers]: [string | string[] | undefined]. *)
Inductive HeaderValue :=
| HUndefined
| HString (s : string)
| HArray (l : list string).

(** The test [h !== undefined && typeof h !== 'string'] fails exactly on
    the values of type [string | undefined], which is the type TypeScript
    gives [paymentId] after the first guard. *)
Definition string_or_undefined (h : HeaderValue) : option (option string) :=
  match h with
  | HUndefined => Some None
  | HString s => Some (Some s)
  | HArray _ => None
  end.

(** [whitelist.includes(ip)] *)
Definition includes (l : list string) (x : string) : bool :=
  existsb (String.eqb x) l.

(** What [bodyParser.raw({ type: 'application/json' })] leaves in
    [req.body]: the body in a [Buffer] when it read it (the request has a
    body and the JSON content type), the empty object [{}] when it did
    not. *)
Inductive Body :=
| Buffer (b : bytes)
| EmptyObject.

(** The request as the handler sees it. *)
Record Request := mkRequest {
  params_id : string;
  body : Body;
  ip : string;
  headers : string -> HeaderValue
}.

(** A thrown value: an [Error], possibly carrying a [status]. *)
Record Exn := mkExn {
  exn_status : option JsNumber;
  exn_message : string
}.

(** How a call ends. *)
Inductive Outcome (A : Type) :=
| Returned (a : A)
| Thrown (e : Exn).
Arguments Thrown {A} e.

Definition Buffer_toString (b : bytes) : Utf8.jsstring := Utf8.decode b.
Definition TextEncoder_encode (s : Utf8.jsstring) : bytes := Utf8.encode s.

(** [({}).toString()] *)
Definition Object_toString : Utf8.jsstring :=
  map N_of_ascii (list_ascii_of_string "[object Object]").

(** [req.body.toString()] *)
Definition Body_toString (b : Body) : Utf8.jsstring :=
  match b with
  | Buffer b => Buffer_toString b
  | EmptyObject => Object_toString
  end.

(** [x | 0] on an integer: the value brought into 32 signed bits. *)
Definition to_int32 (z : Z) : Z :=
  ((z + 2 ^ 31) mod 2 ^ 32 - 2 ^ 31)%Z.

(** Whether Node writes the head of a response with this status code:
    [statusCode |= 0; if (statusCode < 100 || statusCode > 999) throw]. *)
Definition accepts_status (s : JsNumber) : bool :=
  match s with
  | JNum z => ((100 <=? to_int32 z) && (to_int32 z <=? 999))%Z
  | JNaN => false
  end.

(* ===================================================================== *)
(** ** The server *)
(* ===================================================================== *)

Section Server.

(** The class [SubgraphDeploymentID] of [@graphprotocol/common-ts] and the
    type of query results are not the server's business. *)
Variable SubgraphDeploymentID : Type.
Variable Result : Type.

(** Arguments and result of the two operations of [QueryProcessor]. *)
Record PaidQuery := mkPaidQuery {
  paid_subgraphDeploymentID : SubgraphDeploymentID;
  paid_paymentId : string;
  paid_query : Utf8.jsstring;
  paid_requestCID : string
}.

Record FreeQuery := mkFreeQuery {
  free_subgraphDeploymentID : SubgraphDeploymentID;
  free_stateChannelID : string;
  free_query : Utf8.jsstring;
  free_requestCID : string
}.

Record QueryResponse := mkQueryResponse {
  response_status : option JsNumber;
  response_result : Result
}.

(** What [res.send] is given. *)
Inductive Payload :=
| ErrorPayload (error : string)
| ResultPayload (result : Result).

(** The arguments of a completed [res.status(s).contentType(t).send(b)]. *)
Record Response := mkResponse {
  status : JsNumber;
  contentType : string;
  payload : Payload
}.

Inductive LogLevel := Info | Error.

(** The log lines of the handler, with the values they interpolate. *)
Inductive LogMessage :=
| InvalidPaymentID (subgraph : SubgraphDeploymentID)
| MissingPaymentID (subgraph : SubgraphDeploymentID)
| ReceivedPaidQuery (subgraph : SubgraphDeploymentID) (paymentId : string)
| FailedPaidQuery (e : Exn)
| ReceivedFreeQuery (subgraph : SubgraphDeploymentID)
| InvalidStateChannelID (subgraph : SubgraphDeploymentID)
| FailedFreeQuery (e : Exn).

(** What one run of the handler does to the outside, in order. *)
Inductive Event :=
| Log (level : LogLevel) (m : LogMessage)
| AddPaidQuery (q : PaidQuery)
| AddFreeQuery (q : FreeQuery)
| Send (r : Response).

Definition trace := list Event.

(** *** Trace and exception monad *)

Definition M (A : Type) : Type := trace * Outcome A.

Definition ret {A} (a : A) : M A := ([], Returned a).

Definition bind {A B} (m : M A) (k : A -> M B) : M B :=
  match m with
  | (t, Returned a) => let '(t', o) := k a in ((t ++ t')%list, o)
  | (t, Thrown e) => (t, Thrown e)
  end.

Definition emit (e : Event) : M unit := ([e], Returned tt).

Definition throw {A} (e : Exn) : M A := ([], Thrown e).

(** A call into a collaborator, leaving [evs] in the trace. *)
Definition call {A} (evs : trace) (o : Outcome A) : M A := (evs, o).

(** [try { m } catch (e) { h e }] *)
Definition try_catch {A} (m : M A) (h : Exn -> M A) : M A :=
  match m with
  | (t, Returned a) => (t, Returned a)
  | (t, Thrown e) => let '(t', o) := h e in ((t ++ t')%list, o)
  end.

Notation "x <- m ;; k" := (bind m (fun x => k))
  (at level 61, m at next level, right associativity).
Notation "m ;; k" := (bind m (fun _ => k))
  (at level 61, right associativity).

(** *** Collaborators *)

(** [new SubgraphDeploymentID(id)]: a constructor of another package, which
    may throw. *)
Variable newSubgraphDeploymentID : string -> Outcome SubgraphDeploymentID.

(** [utils.keccak256] *)
Variable keccak256 : bytes -> string.

(** The message of the [RangeError] that Node throws for a status code it
    refuses. *)
Variable invalid_status_message : JsNumber -> string.

(** The query processor: what awaiting each operation yields.  One run of
    the handler calls it at most once, so a function of the argument is
    enough. *)
Variable addPaidQuery : PaidQuery -> Outcome QueryResponse.
Variable addFreeQuery : FreeQuery -> Outcome QueryResponse.

Variable whitelist : list string.

(** *** The handler of [POST /subgraphs/id/:id] *)

Definition JSON : string := "application/json".

(** [res.status(s).contentType(t).send(b)]: the response is sent, unless
    Node refuses the status code; then [send] throws a [RangeError], which
    has no [status], and nothing is sent. *)
Definition respond (s : JsNumber) (t : string) (b : Payload) : M unit :=
  if accepts_status s then emit (Send (mkResponse s t b))
  else throw (mkExn None (invalid_status_message s)).

Definition info (m : LogMessage) : M unit := emit (Log Info m).
Definition error (m : LogMessage) : M unit := emit (Log Error m).

(** The branch [paymentId !== undefined]. *)
Definition paid_path (subgraphDeploymentID : SubgraphDeploymentID)
    (paymentId : string) (query : Utf8.jsstring) : M unit :=
  info (ReceivedPaidQuery subgraphDeploymentID paymentId) ;;
  try_catch
    (let q := mkPaidQuery subgraphDeploymentID paymentId query
                (keccak256 (TextEncoder_encode query)) in
     response <- call [AddPaidQuery q] (addPaidQuery q) ;;
     respond (or_default (response_status response) (JNum 200)) JSON
             (ResultPayload (response_result response)))
    (fun e =>
     error (FailedPaidQuery e) ;;
     respond (or_default (exn_status e) (JNum 500)) JSON
             (ErrorPayload (exn_message e))).

(** The [else] branch. *)
Definition free_path (subgraphDeploymentID : SubgraphDeploymentID)
    (req : Request) (query : Utf8.jsstring) : M unit :=
  info (ReceivedFreeQuery subgraphDeploymentID) ;;
  (* Extract the state channel ID (only required for free queries) *)
  match headers req "x-graph-state-channel-id" with
  | HString stateChannelID =>
      try_catch
        (let q := mkFreeQuery subgraphDeploymentID stateChannelID query
                    (keccak256 (TextEncoder_encode query)) in
         response <- call [AddFreeQuery q] (addFreeQuery q) ;;
         respond (or_default (response_status response) (JNum 200)) JSON
                 (ResultPayload (response_result response)))
        (fun e =>
         error (FailedFreeQuery e) ;;
         respond (or_default (exn_status e) (JNum 500)) JSON
                 (ErrorPayload (exn_message e)))
  | _ =>
      info (InvalidStateChannelID subgraphDeploymentID) ;;
      respond (JNum 402) JSON
              (ErrorPayload "Invalid X-Graph-State-Channel-ID provided")
  end.

Definition handler (req : Request) : M unit :=
  let id := params_id req in
  let query := Body_toString (body req) in
  subgraphDeploymentID <- call [] (newSubgraphDeploymentID id) ;;
  (* Extract the payment ID *)
  match string_or_undefined (headers req "x-graph-payment-id") with
  | None =>
      info (InvalidPaymentID subgraphDeploymentID) ;;
      respond (JNum 402) JSON
              (ErrorPayload "Invalid X-Graph-Payment-ID provided")
  | Some paymentId =>
      (* Trusted indexer scenario: a whitelisted source need not pay, but a
         payment that is offered is still taken *)
      let paymentRequired := negb (includes whitelist (ip req)) in
      let dispatch :=
        match paymentId with
        | Some paymentId => paid_path subgraphDeploymentID paymentId query
        | None => free_path subgraphDeploymentID req query
        end in
      if paymentRequired then
        match paymentId with
        | None =>
            info (MissingPaymentID subgraphDeploymentID) ;;
            respond (JNum 402) JSON
                    (ErrorPayload "No X-Graph-Payment-ID provided")
        | Some _ => dispatch
        end
      else dispatch
  end.

(** *** Reading a run *)

Definition responses (t : trace) : list Response :=
  flat_map (fun e => match e with Send r => [r] | _ => [] end) t.

Definition paid_calls (t : trace) : list PaidQuery :=
  flat_map (fun e => match e with AddPaidQuery q => [q] | _ => [] end) t.

Definition free_calls (t : trace) : list FreeQuery :=
  flat_map (fun e => match e with AddFreeQuery q => [q] | _ => [] end) t.

(** The [query] and [requestCID] of every call to the query processor. *)
Definition processor_calls (t : trace) : list (Utf8.jsstring * string) :=
  flat_map (fun e => match e with
                     | AddPaidQuery q => [(paid_query q, paid_requestCID q)]
                     | AddFreeQuery q => [(free_query q, free_requestCID q)]
                     | _ => []
                     end) t.

(** The content identifiers handed to the query processor. *)
Definition request_cids (t : trace) : list string :=
  map snd (processor_calls t).

(** The two branches announce themselves in the log. *)
Definition takes_paid_path (t : trace) : Prop :=
  exists s p, In (Log Info (ReceivedPaidQuery s p)) t.

Definition takes_free_path (t : trace) : Prop :=
  exists s, In (Log Info (ReceivedFreeQuery s)) t.

(** A request that differs from [req] in one header only. *)
Definition with_header (req : Request) (name : string) (v : HeaderValue)
  : Request :=
  mkRequest (params_id req) (body req) (ip req)
            (fun k => if String.eqb k name then v else headers req k).

End Server.

Arguments ErrorPayload {Result} error.
Arguments Log {SubgraphDeploymentID Result} level m.
Arguments AddPaidQuery {SubgraphDeploymentID Result} q.
Arguments AddFreeQuery {SubgraphDeploymentID Result} q.
Arguments Send {SubgraphDeploymentID Result} r.
Arguments FailedPaidQuery {SubgraphDeploymentID} e.
Arguments FailedFreeQuery {SubgraphDeploymentID} e.

(** The outcome of the processor call a run made, if it made one. *)
Definition dispatched {S R}
    (addPaidQuery : PaidQuery S -> Outcome (QueryResponse R))
    (addFreeQuery : FreeQuery S -> Outcome (QueryResponse R))
    (t : trace S R) : option (Outcome (QueryResponse R)) :=
  match paid_calls t, free_calls t with
  | q :: _, _ => Some (addPaidQuery q)
  | [], q :: _ => Some (addFreeQuery q)
  | [], [] => None
  end.

(* ===================================================================== *)
(** ** A concrete deployment *)
(* ===================================================================== *)

(** A server with one trusted address and collaborators with fixed
    behaviour, on which the statements below are exercised. *)
Module Deployment.

Definition whitelist : list string := ["10.0.0.7"].

Definition Result := string.

(** The base58 alphabet: digits and letters without [0], [O], [I], [l]. *)
Definition between (lo hi c : ascii) : bool :=
  (N_of_ascii lo <=? N_of_ascii c)%N && (N_of_ascii c <=? N_of_ascii hi)%N.

Definition is_base58 (c : ascii) : bool :=
  between "1" "9" c
  || between "a" "k" c || between "m" "z" c
  || between "A" "H" c || between "J" "N" c || between "P" "Z" c.

(** A stand-in for [new SubgraphDeploymentID(id)].  The class belongs to
    another package and the statements about the server hold for any
    constructor; the stand-in only has to accept one ID and to refuse
    another.  It refuses an ID that starts with [Qm], as IPFS hashes do,
    and has a character that is not base58; it takes any other ID as it
    is.  The object is represented by the ID it was built from, and the
    exception by [refusal]: the message is the package's own. *)
Definition SubgraphDeploymentID := string.

Definition refusal : Exn := mkExn None "deployment ID refused".

Definition newSubgraphDeploymentID (id : string)
  : Outcome SubgraphDeploymentID :=
  if String.eqb (substring 0 2 id) "Qm"
     && negb (forallb is_base58 (list_ascii_of_string id))
  then Thrown refusal
  else Returned id.

(** The message of Node's [ERR_HTTP_INVALID_STATUS_CODE]. *)
Definition invalid_status_message (s : JsNumber) : string :=
  "Invalid status code: " ++
  match s with
  | JNum z => NilZero.string_of_int (Z.to_int z)
  | JNaN => "NaN"
  end.

Definition subgraph : string :=
  "0x7e1d3b2a9c4f5e6d7c8b9a0f1e2d3c4b5a69788796a5b4c3d2e1f00f1e2d3c4b".

(** An IPFS hash with a [0] where a base58 character should be. *)
Definition malformed_hash : string :=
  "QmXoypizjW3WknFiJnKLwHCnL72vedxjQkDDP1mXWo6uc0".

(** A processor that answers every query, leaving [status] unset. *)
Definition answers {Q} (_ : Q) : Outcome (QueryResponse Result) :=
  Returned (mkQueryResponse None "{data: []}").

(** A processor that answers every query with a given status. *)
Definition answers_with {Q} (status : Z) (_ : Q)
  : Outcome (QueryResponse Result) :=
  Returned (mkQueryResponse (Some (JNum status)) "{data: []}").

(** A processor that answers with status [0]. *)
Definition answers_zero {Q} : Q -> Outcome (QueryResponse Result) :=
  answers_with 0.

(** A processor that refuses every query. *)
Definition rate_limits {Q} (_ : Q) : Outcome (QueryResponse Result) :=
  Thrown (mkExn (Some (JNum 429)) "rate limited").

(** A processor that fails with a given status. *)
Definition fails_with {Q} (status : Z) (_ : Q)
  : Outcome (QueryResponse Result) :=
  Thrown (mkExn (Some (JNum status)) "down").

(** A processor that fails with status [0]. *)
Definition fails_zero {Q} : Q -> Outcome (QueryResponse Result) :=
  fails_with 0.

Definition no_headers : string -> HeaderValue := fun _ => HUndefined.

Definition header (name : string) (v : HeaderValue)
    (rest : string -> HeaderValue) : string -> HeaderValue :=
  fun k => if String.eqb k name then v else rest k.

(** The server as deployed, for given processor operations. *)
Definition serve
    (addPaidQuery : PaidQuery SubgraphDeploymentID
                    -> Outcome (QueryResponse Result))
    (addFreeQuery : FreeQuery SubgraphDeploymentID
                    -> Outcome (QueryResponse Result))
    (req : Request) : M SubgraphDeploymentID Result unit :=
  handler newSubgraphDeploymentID Keccak.keccak256 invalid_status_message
          addPaidQuery addFreeQuery whitelist req.

Definition json (s : string) : Body := Buffer (list_byte_of_string s).

(** Scenario A: trusted source, no payment, state channel [sc-1]. *)
Definition scenarioA : Request :=
  mkRequest subgraph (json "{ tokens { id } }") "10.0.0.7"
            (header "x-graph-state-channel-id" (HString "sc-1") no_headers).

(** Scenario B: unknown source paying with [pay-42]. *)
Definition scenarioB : Request :=
  mkRequest subgraph (json "{ pools { id } }") "203.0.113.9"
            (header "x-graph-payment-id" (HString "pay-42") no_headers).

(** Scenario C: the payment header sent twice. *)
Definition scenarioC : Request :=
  mkRequest subgraph (json "{ pools { id } }") "203.0.113.9"
            (header "x-graph-payment-id" (HArray ["pay-1"; "pay-2"])
                    no_headers).

(** An unknown source that offers no payment. *)
Definition unpaid : Request :=
  mkRequest subgraph (json "{ pools { id } }") "203.0.113.9"
            (header "x-graph-state-channel-id" (HString "sc-1") no_headers).

(** A trusted source that sends no state channel. *)
Definition trusted_bare : Request :=
  mkRequest subgraph (json "{ tokens { id } }") "10.0.0.7" no_headers.

(** A trusted source that pays all the same. *)
Definition trusted_paying : Request :=
  mkRequest subgraph (json "{ tokens { id } }") "10.0.0.7"
            (header "x-graph-payment-id" (HString "pay-7") no_headers).

(** A paying request with any body. *)
Definition paying_with_body (b : Body) : Request :=
  mkRequest subgraph b "203.0.113.9"
            (header "x-graph-payment-id" (HString "pay-42") no_headers).

(** Requests for a deployment ID that the constructor refuses. *)
Definition refused (req : Request) : Request :=
  mkRequest malformed_hash (body req) (ip req) (headers req).

End Deployment.


(* ===================================================================== *)
(** ** More ways to read a run and to vary a request *)
(* ===================================================================== *)

(** The messages logged at error level. *)
Definition error_logs {S R} (t : trace S R) : list (LogMessage S) :=
  flat_map (fun e => match e with Log Error m => [m] | _ => [] end) t.

(** The same request from another address, or with another body. *)
Definition with_ip (req : Request) (ip' : string) : Request :=
  mkRequest (params_id req) (body req) ip' (headers req).

Definition with_body (req : Request) (b : Body) : Request :=
  mkRequest (params_id req) b (ip req) (headers req).

(** What the UTF-8 decoder has read of a character, between two bytes:
    the bits in [acc] and the bounds on the next byte are such that only a
    scalar value can come out. *)
Definition decoder_ok (st : Utf8.dstate) : Prop :=
  match Utf8.needed st with
  | 0%nat => True
  | 1%nat =>
      Utf8.lower st = 0x80 /\ Utf8.upper st = 0xBF /\
      2 <= Utf8.acc st <= 0x43FF /\
      ~ (0x360 <= Utf8.acc st <= 0x37F)
  | 2%nat =>
      0x80 <= Utf8.lower st /\ Utf8.upper st <= 0xBF /\
      Utf8.acc st <= 0x10F /\
      (Utf8.acc st = 0 -> 0xA0 <= Utf8.lower st) /\
      (Utf8.acc st = 0xD -> Utf8.upper st <= 0x9F)
  | 3%nat =>
      0x80 <= Utf8.lower st /\ Utf8.upper st <= 0xBF /\
      Utf8.acc st <= 4 /\
      (Utf8.acc st = 0 -> 0x90 <= Utf8.lower st) /\
      (Utf8.acc st = 4 -> Utf8.upper st <= 0x8F)
  | _ => False
  end%N.

(** One when the decoder is in the middle of a character, else zero. *)
Definition pending (st : Utf8.dstate) : nat :=
  match Utf8.needed st with
  | O => 0
  | S _ => 1
  end.

(* ===================================================================== *)
(** ** The stream that feeds the request log to the logger *)
(* ===================================================================== *)

(** [loggerStream._write = (chunk, _, next) => {
       logger.debug(chunk.toString().trim()); next() }] *)
Module LoggerStream.

(** White space and line terminators of ECMAScript, which [trim] strips. *)
Definition is_whitespace (c : Utf8.codepoint) : bool :=
  (((0x9 <=? c) && (c <=? 0xD))
   || (c =? 0x20) || (c =? 0xA0) || (c =? 0x1680)
   || ((0x2000 <=? c) && (c <=? 0x200A))
   || (c =? 0x2028) || (c =? 0x2029) || (c =? 0x202F) || (c =? 0x205F)
   || (c =? 0x3000) || (c =? 0xFEFF))%N.

Fixpoint trimStart (s : Utf8.jsstring) : Utf8.jsstring :=
  match s with
  | [] => []
  | c :: s' => if is_whitespace c then trimStart s' else s
  end.

Definition trimEnd (s : Utf8.jsstring) : Utf8.jsstring :=
  rev (trimStart (rev s)).

(** [s.trim()] *)
Definition trim (s : Utf8.jsstring) : Utf8.jsstring :=
  trimEnd (trimStart s).

Inductive Event :=
| Debug (message : Utf8.jsstring)
| Next.

Definition _write (chunk : bytes) : list Event :=
  [Debug (trim (Buffer_toString chunk)); Next].

End LoggerStream.

(* ===================================================================== *)
(** * Properties *)
(* ===================================================================== *)

(** ** UTF-8: decoding an encoding gives the string back *)

Section Utf8Facts.
Import Utf8.
Local Open Scope N_scope.
Local Open Scope list_scope.

(** Arithmetic with division and remainder by constants. *)
Ltac ndiv := zify; Z.to_euclidean_division_equations; lia.

Lemma to_N_byte_of_N n : n < 256 -> Byte.to_N (byte_of_N n) = n.
Proof.
  intros Hn. unfold byte_of_N. rewrite N.mod_small by assumption.
  destruct (Byte.of_N n) as [b|] eqn:E.
  - now apply Byte.to_of_N.
  - apply Byte.of_N_None_iff in E. lia.
Qed.

(** *** Masks and shifts as arithmetic *)

(** Bits that do not overlap add up. *)
Lemma lor_shiftl_add a b n :
  b < 2 ^ n -> N.lor (N.shiftl a n) b = N.shiftl a n + b.
Proof.
  intros Hb. rewrite N.add_nocarry_lxor, N.lxor_lor; auto;
    apply N.bits_inj; intros i; rewrite N.land_spec, N.bits_0;
    destruct (N.lt_ge_cases i n) as [Hi|Hi];
    try (rewrite N.shiftl_spec_low by assumption; reflexivity);
    rewrite <- (N.mod_small b (2 ^ n)) by assumption;
    rewrite N.mod_pow2_bits_high by assumption;
    apply andb_false_r.
Qed.

Lemma lor_80 x : x < 64 -> N.lor 0x80 x = 0x80 + x.
Proof.
  intros. change 0x80 with (N.shiftl 2 6). now apply lor_shiftl_add.
Qed.

Lemma lor_C0 x : x < 64 -> N.lor 0xC0 x = 0xC0 + x.
Proof.
  intros. change 0xC0 with (N.shiftl 3 6). now apply lor_shiftl_add.
Qed.

Lemma lor_E0 x : x < 32 -> N.lor 0xE0 x = 0xE0 + x.
Proof.
  intros. change 0xE0 with (N.shiftl 7 5). now apply lor_shiftl_add.
Qed.

Lemma lor_F0 x : x < 16 -> N.lor 0xF0 x = 0xF0 + x.
Proof.
  intros. change 0xF0 with (N.shiftl 15 4). now apply lor_shiftl_add.
Qed.

Lemma land_3F x : N.land x 0x3F = x mod 64.
Proof. change 0x3F with (N.ones 6). now rewrite N.land_ones. Qed.

Lemma land_1F x : N.land x 0x1F = x mod 32.
Proof. change 0x1F with (N.ones 5). now rewrite N.land_ones. Qed.

Lemma land_F x : N.land x 0xF = x mod 16.
Proof. change 0xF with (N.ones 4). now rewrite N.land_ones. Qed.

Lemma land_7 x : N.land x 0x7 = x mod 8.
Proof. change 0x7 with (N.ones 3). now rewrite N.land_ones. Qed.

Lemma shiftr_6 x : N.shiftr x 6 = x / 64.
Proof. now rewrite N.shiftr_div_pow2. Qed.

Lemma shiftr_12 x : N.shiftr x 12 = x / 4096.
Proof. now rewrite N.shiftr_div_pow2. Qed.

Lemma shiftr_18 x : N.shiftr x 18 = x / 262144.
Proof. now rewrite N.shiftr_div_pow2. Qed.

(** Six more bits pushed into the accumulator. *)
Lemma push_6 a x : x < 64 -> N.lor (N.shiftl a 6) x = a * 64 + x.
Proof.
  intros. rewrite lor_shiftl_add by assumption.
  now rewrite N.shiftl_mul_pow2.
Qed.

(** A continuation byte, read back. *)
Lemma cont_byte x :
  Byte.to_N (byte_of_N (N.lor 0x80 (N.land x 0x3F))) = 0x80 + x mod 64.
Proof.
  rewrite land_3F, lor_80 by ndiv. apply to_N_byte_of_N. ndiv.
Qed.

(** *** The decoder on the encoding of one scalar value *)

(** A continuation byte within bounds is consumed. *)
Lemma dstep_cont st n b :
  needed st = S n -> lower st <= b -> b <= upper st ->
  dstep st b =
    let a := N.lor (N.shiftl (acc st) 6) (N.land b 0x3F) in
    match n with O => ([a], dinit) | S _ => ([], mkDState n a 0x80 0xBF) end.
Proof.
  intros Hn Hl Hu. unfold dstep. rewrite Hn.
  apply N.leb_le in Hl, Hu. now rewrite Hl, Hu.
Qed.

(** The decoder reads the encoding of a scalar value as that value, and is
    back in its initial state. *)
Lemma decode_encode_codepoint c rest :
  scalar c ->
  decode_from dinit (encode_codepoint c ++ rest) = c :: decode_from dinit rest.
Proof.
  intros Hc. unfold encode_codepoint.
  destruct (N.ltb_spec c 0x80) as [H1|H1].
  { cbn [app decode_from]. rewrite to_N_byte_of_N by lia.
    unfold dstep, lead; cbn [needed dinit].
    destruct (N.leb_spec c 0x7F); [reflexivity | lia]. }
  destruct (N.ltb_spec c 0x800) as [H2|H2].
  { cbn [app decode_from]. rewrite cont_byte.
    rewrite shiftr_6, lor_C0 by ndiv. rewrite to_N_byte_of_N by ndiv.
    unfold dstep at 1; cbn [needed dinit]. unfold lead.
    destruct (N.leb_spec (0xC0 + c / 64) 0x7F); [ndiv|].
    destruct (N.leb_spec 0xC2 (0xC0 + c / 64)); [|ndiv].
    destruct (N.leb_spec (0xC0 + c / 64) 0xDF); [|ndiv].
    cbn [andb].
    rewrite dstep_cont with (n := O); cbn [needed lower upper acc];
      try reflexivity; try ndiv.
    cbn zeta. rewrite land_1F, land_3F, push_6 by ndiv.
    cbn [app]. f_equal. ndiv. }
  destruct (N.ltb_spec c 0x10000) as [H3|H3].
  { assert (Hs : is_surrogate c = false).
    { unfold is_surrogate. destruct Hc as [Hc|[Hc _]].
      - destruct (N.leb_spec 0xD800 c); [lia|reflexivity].
      - destruct (N.leb_spec c 0xDFFF); [lia|apply andb_false_r]. }
    rewrite Hs. cbn [app decode_from]. rewrite !cont_byte.
    rewrite shiftr_12, shiftr_6, lor_E0 by ndiv.
    rewrite to_N_byte_of_N by ndiv.
    unfold dstep at 1; cbn [needed dinit]. unfold lead.
    destruct (N.leb_spec (0xE0 + c / 4096) 0x7F); [ndiv|].
    destruct (N.leb_spec 0xC2 (0xE0 + c / 4096)); [|ndiv].
    destruct (N.leb_spec (0xE0 + c / 4096) 0xDF); [ndiv|].
    destruct (N.leb_spec 0xE0 (0xE0 + c / 4096)); [|ndiv].
    destruct (N.leb_spec (0xE0 + c / 4096) 0xEF); [|ndiv].
    cbn [andb].
    rewrite dstep_cont with (n := 1%nat); cbn [needed lower upper acc];
      try reflexivity.
    2:{ destruct (N.eqb_spec (0xE0 + c / 4096) 0xE0); ndiv. }
    2:{ destruct (N.eqb_spec (0xE0 + c / 4096) 0xED); [|ndiv].
        unfold scalar in Hc. ndiv. }
    cbn zeta. cbn [app].
    rewrite dstep_cont with (n := O); cbn [needed lower upper acc];
      try reflexivity; try ndiv.
    cbn zeta. rewrite land_F, !land_3F, !push_6 by ndiv.
    cbn [app]. f_equal. ndiv. }
  { assert (Hmax : c <= 0x10FFFF) by (unfold scalar in Hc; lia).
    cbn [app decode_from]. rewrite !cont_byte.
    rewrite shiftr_18, shiftr_12, shiftr_6, lor_F0 by ndiv.
    rewrite to_N_byte_of_N by ndiv.
    unfold dstep at 1; cbn [needed dinit]. unfold lead.
    destruct (N.leb_spec (0xF0 + c / 262144) 0x7F); [ndiv|].
    destruct (N.leb_spec 0xC2 (0xF0 + c / 262144)); [|ndiv].
    destruct (N.leb_spec (0xF0 + c / 262144) 0xDF); [ndiv|].
    destruct (N.leb_spec 0xE0 (0xF0 + c / 262144)); [|ndiv].
    destruct (N.leb_spec (0xF0 + c / 262144) 0xEF); [ndiv|].
    destruct (N.leb_spec 0xF0 (0xF0 + c / 262144)); [|ndiv].
    destruct (N.leb_spec (0xF0 + c / 262144) 0xF4); [|ndiv].
    cbn [andb].
    rewrite dstep_cont with (n := 2%nat); cbn [needed lower upper acc];
      try reflexivity.
    2:{ destruct (N.eqb_spec (0xF0 + c / 262144) 0xF0); ndiv. }
    2:{ destruct (N.eqb_spec (0xF0 + c / 262144) 0xF4); ndiv. }
    cbn zeta. cbn [app].
    rewrite dstep_cont with (n := 1%nat); cbn [needed lower upper acc];
      try reflexivity; try ndiv.
    cbn zeta. cbn [app].
    rewrite dstep_cont with (n := O); cbn [needed lower upper acc];
      try reflexivity; try ndiv.
    cbn zeta. rewrite land_7, !land_3F, !push_6 by ndiv.
    cbn [app]. f_equal. ndiv. }
Qed.

Lemma decode_encode s : Forall scalar s -> decode (encode s) = s.
Proof.
  unfold decode. induction 1 as [|c s Hc Hs IH]; [reflexivity|].
  cbn [encode flat_map]. rewrite decode_encode_codepoint by assumption.
  f_equal. exact IH.
Qed.

(** On well-formed UTF-8 the detour through a string changes nothing. *)
Lemma encode_decode_well_formed b :
  well_formed b -> encode (decode b) = b.
Proof.
  intros (s & Hs & ->). now rewrite decode_encode.
Qed.

(** *** What the decoder can produce *)

Lemma to_N_lt_256 b : Byte.to_N b < 256.
Proof. pose proof (Byte.to_N_bounded b). lia. Qed.

Lemma scalar_REPLACEMENT : scalar REPLACEMENT.
Proof. right. unfold REPLACEMENT. lia. Qed.

(** A byte read in the initial state gives scalar values and a state from
    which only scalar values can follow. *)
Lemma lead_ok b out st :
  b < 256 -> lead b = (out, st) ->
  Forall scalar out /\ decoder_ok st /\
  (List.length out + pending st <= 1)%nat.
Proof.
  intros Hb. unfold lead.
  destruct (N.leb_spec b 0x7F).
  { intros [= <- <-]. split; [|split; [exact I | cbn; lia]].
    constructor; [left; lia | constructor]. }
  destruct (N.leb_spec 0xC2 b); destruct (N.leb_spec b 0xDF); cbn [andb].
  1: { intros [= <- <-]. split; [constructor|]. split; [|cbn; lia].
       unfold decoder_ok; cbn [needed lower upper acc].
       rewrite land_1F. repeat split; ndiv. }
  all: destruct (N.leb_spec 0xE0 b); destruct (N.leb_spec b 0xEF);
    cbn [andb].
  all: try (intros [= <- <-]; split; [constructor|]; split; [|cbn; lia];
            unfold decoder_ok; cbn [needed lower upper acc];
            rewrite land_F;
            destruct (N.eqb_spec b 0xE0); destruct (N.eqb_spec b 0xED);
            repeat split; ndiv).
  all: destruct (N.leb_spec 0xF0 b); destruct (N.leb_spec b 0xF4);
    cbn [andb].
  all: try (intros [= <- <-]; split; [constructor|]; split; [|cbn; lia];
            unfold decoder_ok; cbn [needed lower upper acc];
            rewrite land_7;
            destruct (N.eqb_spec b 0xF0); destruct (N.eqb_spec b 0xF4);
            repeat split; ndiv).
  all: intros [= <- <-]; (split; [|split; [exact I | cbn; lia]]);
    constructor; [apply scalar_REPLACEMENT | constructor].
Qed.

(** One step of the decoder keeps [decoder_ok], gives scalar values only,
    and gives no more characters than it has read bytes. *)
Lemma dstep_ok st b out st' :
  decoder_ok st -> b < 256 -> dstep st b = (out, st') ->
  Forall scalar out /\ decoder_ok st' /\
  (List.length out + pending st' <= 1 + pending st)%nat.
Proof.
  intros Hst Hb. unfold dstep, pending at 2.
  destruct (needed st) as [|n] eqn:Hn.
  { intros Hl. destruct (lead_ok Hb Hl) as (? & ? & ?).
    repeat split; auto; lia. }
  destruct (N.leb_spec (lower st) b) as [Hlo|Hlo];
    destruct (N.leb_spec b (upper st)) as [Hhi|Hhi]; cbn [andb].
  2-4: destruct (lead b) as [o s] eqn:Hl; intros [= <- <-];
       destruct (lead_ok Hb Hl) as (? & ? & ?);
       (split; [constructor; [apply scalar_REPLACEMENT | assumption]|]);
       (split; [assumption | cbn [List.length]; lia]).
  unfold decoder_ok in Hst. rewrite Hn in Hst.
  cbn zeta. rewrite land_3F, push_6 by ndiv.
  destruct n as [|[|[|n]]]; [| | |contradiction].
  - intros [= <- <-]. destruct Hst as (Hl & Hu & Ha & Hs).
    split; [|split; [exact I | cbn; lia]].
    constructor; [|constructor]. unfold scalar.
    assert (acc st < 0x360 \/ 0x37F < acc st) as [?|?] by lia;
      [left|right]; ndiv.
  - intros [= <- <-]. split; [constructor|]. split; [|cbn; lia].
    unfold decoder_ok; cbn [needed lower upper acc].
    destruct Hst as (Hl & Hu & Ha & H0 & Hd).
    assert (acc st = 0xD -> b <= 0x9F) by (intros E; specialize (Hd E); lia).
    assert (acc st = 0 -> 0xA0 <= b) by (intros E; specialize (H0 E); lia).
    assert (acc st = 0 \/ acc st = 0xD \/ (acc st <> 0 /\ acc st <> 0xD))
      as [E|[E|[E1 E2]]] by lia;
      [specialize (H1 E) | specialize (H E) | ]; repeat split; ndiv.
  - intros [= <- <-]. split; [constructor|]. split; [|cbn; lia].
    unfold decoder_ok; cbn [needed lower upper acc].
    destruct Hst as (Hl & Hu & Ha & H0 & H4).
    assert (acc st = 4 -> b <= 0x8F) by (intros E; specialize (H4 E); lia).
    assert (acc st = 0 -> 0x90 <= b) by (intros E; specialize (H0 E); lia).
    assert (acc st = 0 \/ acc st = 4 \/ (acc st <> 0 /\ acc st <> 4))
      as [E|[E|[E1 E2]]] by lia;
      [specialize (H1 E) | specialize (H E) | ];
      repeat split; try ndiv; intros; exfalso; ndiv.
Qed.

Lemma decode_from_ok st bs :
  decoder_ok st ->
  Forall scalar (decode_from st bs) /\
  (List.length (decode_from st bs) <= List.length bs + pending st)%nat.
Proof.
  revert st. induction bs as [|b bs IH]; intros st Hst.
  - cbn. unfold pending. destruct (needed st); cbn; (split; [|lia]).
    + constructor.
    + constructor; [apply scalar_REPLACEMENT | constructor].
  - cbn [decode_from].
    destruct (dstep st (Byte.to_N b)) as [out st'] eqn:Hd.
    destruct (@dstep_ok st _ _ _ Hst (to_N_lt_256 b) Hd) as (Ho & Hst' & Hlen).
    destruct (IH st' Hst') as (Hr & Hlr).
    split; [apply Forall_app; now split|].
    rewrite length_app. cbn [List.length]. lia.
Qed.

(** However ill-formed the bytes, [toString] gives a string of scalar
    values: no surrogate, nothing above U+10FFFF. *)
Theorem Buffer_toString_scalar b : Forall scalar (Buffer_toString b).
Proof. apply decode_from_ok. exact I. Qed.

(** [toString] gives at most one character per byte. *)
Theorem Buffer_toString_length b :
  (List.length (Buffer_toString b) <= List.length b)%nat.
Proof.
  pose proof (proj2 (@decode_from_ok dinit b I)) as H.
  unfold pending in H. cbn in H. unfold Buffer_toString, decode. lia.
Qed.

(** A string of scalar values survives encoding and decoding. *)
Theorem TextEncoder_round_trip s :
  Forall scalar s -> Buffer_toString (TextEncoder_encode s) = s.
Proof. exact (@decode_encode s). Qed.

(** Decoding and encoding again changes the bytes exactly when they are
    not well-formed UTF-8. *)
Theorem well_formed_iff_unchanged b :
  well_formed b <-> TextEncoder_encode (Buffer_toString b) = b.
Proof.
  split.
  - apply encode_decode_well_formed.
  - intros H. exists (decode b). split.
    + apply decode_from_ok. exact I.
    + symmetry. exact H.
Qed.

End Utf8Facts.

(** ** Keccak-256 test vectors *)

Example keccak256_empty : Keccak.keccak256 [] =
  "0xc5d2460186f7233c927e7db2dcc703c0e500b653ca82273b7bfad8045d85a470".
Proof. vm_compute. reflexivity. Qed.

Example keccak256_abc : Keccak.keccak256 [x61; x62; x63] =
  "0x4e03657aea45a94fc7d47ba826c8d667c0d1e6e33a64a036ec44f58fa12d6c45".
Proof. vm_compute. reflexivity. Qed.

(** ** The codec on samples *)

Example encode_sample : Utf8.encode [0x41; 0xE9; 0x20AC; 0x1F600]%N
  = [x41; xc3; xa9; xe2; x82; xac; xf0; x9f; x98; x80].
Proof. reflexivity. Qed.

Example decode_sample :
  Utf8.decode [x41; xc3; xa9; xe2; x82; xac; xf0; x9f; x98; x80]
  = [0x41; 0xE9; 0x20AC; 0x1F600]%N.
Proof. reflexivity. Qed.

Example decode_ill_formed :
  Utf8.decode [xff] = [0xFFFD]%N
  /\ Utf8.decode [xe2; x82] = [0xFFFD]%N
  /\ Utf8.decode [xe2; x41] = [0xFFFD; 0x41]%N
  /\ Utf8.decode [xed; xa0; x80] = [0xFFFD; 0xFFFD; 0xFFFD]%N
  /\ Utf8.decode [xc0; x80] = [0xFFFD; 0xFFFD]%N.
Proof. repeat split. Qed.

(* ===================================================================== *)
(** ** Status codes *)
(* ===================================================================== *)

Lemma valid_status_accepted z :
  (100 <= z <= 999)%Z -> accepts_status (JNum z) = true.
Proof.
  intros Hz. unfold accepts_status, to_int32.
  rewrite Z.mod_small by lia. apply andb_true_intro. split; lia.
Qed.

Lemma small_status_refused z :
  (- 2 ^ 31 <= z < 100)%Z -> accepts_status (JNum z) = false.
Proof.
  intros Hz. unfold accepts_status, to_int32.
  rewrite Z.mod_small by lia. apply andb_false_intro1. lia.
Qed.

(* ===================================================================== *)
(** ** The handler *)
(* ===================================================================== *)

Section ServerFacts.

Variables SubgraphDeploymentID Result : Type.
Variable newSubgraphDeploymentID : string -> Outcome SubgraphDeploymentID.
Variable keccak256 : bytes -> string.
Variable invalid_status_message : JsNumber -> string.
Variable addPaidQuery :
  PaidQuery SubgraphDeploymentID -> Outcome (QueryResponse Result).
Variable addFreeQuery :
  FreeQuery SubgraphDeploymentID -> Outcome (QueryResponse Result).
Variable whitelist : list string.

Local Abbreviation run :=
  (handler newSubgraphDeploymentID keccak256 invalid_status_message
           addPaidQuery addFreeQuery whitelist).
Local Abbreviation outcome_of := (dispatched addPaidQuery addFreeQuery).

(** The response to a processor outcome. *)
Local Abbreviation success r :=
  (mkResponse (or_default (response_status r) (JNum 200)) "application/json"
              (ResultPayload (response_result r))).
Local Abbreviation failure e :=
  (mkResponse (Result := Result)
              (or_default (exn_status e) (JNum 500)) "application/json"
              (ErrorPayload (exn_message e))).
Local Abbreviation rejection msg :=
  (mkResponse (Result := Result) (JNum 402) "application/json"
              (ErrorPayload msg)).

(** The [RangeError] for a refused status code. *)
Local Abbreviation range_error s := (mkExn None (invalid_status_message s)).

(** What follows the call to the query processor: the rest of the [try]
    and, if need be, the [catch], whose log line is [failed]. *)
Local Abbreviation settled failed o :=
  (match o return trace SubgraphDeploymentID Result * Outcome unit with
   | Returned r =>
       if accepts_status (or_default (response_status r) (JNum 200))
       then ([Send (success r)], Returned tt)
       else ([Log Error
                (failed
                   (range_error
                      (or_default (response_status r) (JNum 200))));
              Send (failure
                      (range_error
                         (or_default (response_status r) (JNum 200))))],
             Returned tt)
   | Thrown e =>
       if accepts_status (or_default (exn_status e) (JNum 500))
       then ([Log Error (failed e); Send (failure e)], Returned tt)
       else ([Log Error (failed e)],
             Thrown (range_error (or_default (exn_status e) (JNum 500))))
   end).

(** *** Each branch, as the trace it leaves *)

Lemma paid_path_run sid p query :
  paid_path keccak256 invalid_status_message addPaidQuery sid p query =
  let q := mkPaidQuery sid p query (keccak256 (TextEncoder_encode query)) in
  (Log Info (ReceivedPaidQuery sid p) :: AddPaidQuery q ::
   fst (settled FailedPaidQuery (addPaidQuery q)),
   snd (settled FailedPaidQuery (addPaidQuery q))).
Proof.
  unfold paid_path, try_catch, bind, call, respond, info, error, emit, throw.
  cbn zeta. destruct (addPaidQuery _) as [r|e]; cbn.
  - destruct (accepts_status (or_default (response_status r) (JNum 200)));
      reflexivity.
  - destruct (accepts_status (or_default (exn_status e) (JNum 500)));
      reflexivity.
Qed.

Lemma free_path_run sid req query s :
  headers req "x-graph-state-channel-id" = HString s ->
  free_path keccak256 invalid_status_message addFreeQuery sid req query =
  let q := mkFreeQuery sid s query (keccak256 (TextEncoder_encode query)) in
  (Log Info (ReceivedFreeQuery sid) :: AddFreeQuery q ::
   fst (settled FailedFreeQuery (addFreeQuery q)),
   snd (settled FailedFreeQuery (addFreeQuery q))).
Proof.
  intros Hs.
  unfold free_path, try_catch, bind, call, respond, info, error, emit, throw.
  rewrite Hs. cbn zeta. destruct (addFreeQuery _) as [r|e]; cbn.
  - destruct (accepts_status (or_default (response_status r) (JNum 200)));
      reflexivity.
  - destruct (accepts_status (or_default (exn_status e) (JNum 500)));
      reflexivity.
Qed.

Lemma free_path_reject sid req query :
  (forall s, headers req "x-graph-state-channel-id" <> HString s) ->
  free_path keccak256 invalid_status_message addFreeQuery sid req query =
  ([Log Info (ReceivedFreeQuery sid); Log Info (InvalidStateChannelID sid);
    Send (rejection "Invalid X-Graph-State-Channel-ID provided")],
   Returned tt).
Proof.
  intros Hs. unfold free_path.
  destruct (headers req "x-graph-state-channel-id") as [|s|l];
    [reflexivity | now elim (Hs s) | reflexivity].
Qed.

(** *** The handler, branch by branch *)

Lemma handler_throws req e :
  newSubgraphDeploymentID (params_id req) = Thrown e ->
  run req = ([], Thrown e).
Proof. intros H. unfold handler, bind, call. now rewrite H. Qed.

Lemma handler_invalid_payment req sid l :
  newSubgraphDeploymentID (params_id req) = Returned sid ->
  headers req "x-graph-payment-id" = HArray l ->
  run req =
  ([Log Info (InvalidPaymentID sid);
    Send (rejection "Invalid X-Graph-Payment-ID provided")], Returned tt).
Proof.
  intros H Hp. unfold handler, bind, call. rewrite H, Hp. reflexivity.
Qed.

Lemma handler_missing_payment req sid :
  newSubgraphDeploymentID (params_id req) = Returned sid ->
  headers req "x-graph-payment-id" = HUndefined ->
  includes whitelist (ip req) = false ->
  run req =
  ([Log Info (MissingPaymentID sid);
    Send (rejection "No X-Graph-Payment-ID provided")], Returned tt).
Proof.
  intros H Hp Hw. unfold handler, bind, call. rewrite H, Hp, Hw. reflexivity.
Qed.

Lemma handler_paid req sid p :
  newSubgraphDeploymentID (params_id req) = Returned sid ->
  headers req "x-graph-payment-id" = HString p ->
  run req =
  paid_path keccak256 invalid_status_message addPaidQuery sid p
            (Body_toString (body req)).
Proof.
  intros H Hp. unfold handler, bind, call. rewrite H, Hp.
  cbn [string_or_undefined app].
  destruct (paid_path keccak256 invalid_status_message addPaidQuery sid p _)
    as [t o].
  destruct (includes whitelist (ip req)); reflexivity.
Qed.

Lemma handler_free req sid :
  newSubgraphDeploymentID (params_id req) = Returned sid ->
  headers req "x-graph-payment-id" = HUndefined ->
  includes whitelist (ip req) = true ->
  run req =
  free_path keccak256 invalid_status_message addFreeQuery sid req
            (Body_toString (body req)).
Proof.
  intros H Hp Hw. unfold handler, bind, call. rewrite H, Hp, Hw.
  cbn [string_or_undefined app negb].
  destruct (free_path keccak256 invalid_status_message addFreeQuery sid req _)
    as [t o].
  reflexivity.
Qed.

(** Case analysis on the way [run req] goes, rewriting it to the trace of
    the branch taken. *)
Ltac branches req :=
  let sid := fresh "sid" in
  let Hid := fresh "Hid" in
  let Hp := fresh "Hp" in
  let Hw := fresh "Hw" in
  destruct (newSubgraphDeploymentID (params_id req)) as [sid|?e] eqn:Hid;
  [ destruct (headers req "x-graph-payment-id") as [|?p|?l] eqn:Hp;
    [ destruct (includes whitelist (ip req)) eqn:Hw;
      [ rewrite (handler_free req Hid Hp Hw)
      | rewrite (handler_missing_payment req Hid Hp Hw) ]
    | rewrite (handler_paid req Hid Hp), paid_path_run
    | rewrite (handler_invalid_payment req Hid Hp) ]
  | rewrite (handler_throws req Hid) ].

(** On the free branch, case analysis on the state channel header. *)
Ltac channels sid req :=
  let Hs := fresh "Hs" in
  destruct (headers req "x-graph-state-channel-id") as [|?s|?l] eqn:Hs;
  [ rewrite free_path_reject by (rewrite Hs; discriminate)
  | rewrite (free_path_run sid req _ Hs)
  | rewrite free_path_reject by (rewrite Hs; discriminate) ].

(** Case analysis on how the call to the processor ended and on whether
    the status code was accepted. *)
Ltac settle :=
  let A := fresh "A" in
  let E := fresh "E" in
  let r := fresh "r" in
  let e := fresh "e" in
  cbn zeta;
  lazymatch goal with
  | |- context [addPaidQuery ?q] =>
      destruct (addPaidQuery q) as [r|e] eqn:E
  | |- context [addFreeQuery ?q] =>
      destruct (addFreeQuery q) as [r|e] eqn:E
  end;
  [ destruct (accepts_status (or_default (response_status r) (JNum 200)))
      eqn:A
  | destruct (accepts_status (or_default (exn_status e) (JNum 500)))
      eqn:A ];
  cbn [fst snd].

(** A string that comes out of [req.body.toString()] has scalar values
    only. *)
Lemma Body_toString_scalar b : Forall Utf8.scalar (Body_toString b).
Proof.
  destruct b as [b|]; cbn [Body_toString].
  - apply decode_from_ok. exact I.
  - repeat (constructor; [left; reflexivity|]). constructor.
Qed.

(** *** Admission *)

(** C1, as the code has it.  When the deployment ID is accepted: a request
    whose payment header is a single string takes the paid path and calls
    [addPaidQuery] exactly once, with that payment ID, whether or not its
    source is whitelisted; a request without payment header never calls
    [addPaidQuery], and takes the free path exactly when its source is
    whitelisted. *)
Theorem path_selection req sid :
  newSubgraphDeploymentID (params_id req) = Returned sid ->
  let t := fst (run req) in
  (forall p, headers req "x-graph-payment-id" = HString p ->
     takes_paid_path t /\ free_calls t = [] /\
     exists q, paid_calls t = [q] /\ paid_paymentId q = p) /\
  (headers req "x-graph-payment-id" = HUndefined ->
     paid_calls t = [] /\ ~ takes_paid_path t /\
     (takes_free_path t <-> includes whitelist (ip req) = true)).
Proof.
  intros H t; subst t. split.
  - intros p Hp. rewrite (handler_paid req H Hp), paid_path_run. cbn zeta.
    split; [exists sid, p; now left|].
    settle; (split; [reflexivity|]); eexists; split; reflexivity.
  - intros Hp. destruct (includes whitelist (ip req)) eqn:Hw.
    + rewrite (handler_free req H Hp Hw).
      channels sid req; try settle;
        (split; [reflexivity|]);
        (split; [intros (s' & p' & Hin); cbn in Hin;
                 repeat (destruct Hin as [Hin|Hin]; [discriminate|]);
                 contradiction|]);
        (split; [reflexivity | intros _; exists sid; now left]).
    + rewrite (handler_missing_payment req H Hp Hw).
      split; [reflexivity|].
      split; [intros (s' & p' & Hin); cbn in Hin;
              repeat (destruct Hin as [Hin|Hin]; [discriminate|]);
              contradiction|].
      split; [|discriminate].
      intros (s' & Hin); cbn in Hin.
      repeat (destruct Hin as [Hin|Hin]; [discriminate|]). contradiction.
Qed.


(** C3 on the code.  For a request from a source outside the whitelist
    and without payment header: when the deployment ID is accepted, the
    one response is 402 [No X-Graph-Payment-ID provided] and the query
    processor is not called, as the claim says; when the constructor
    refuses the ID, no response is sent at all and the exception leaves
    the handler. *)
Theorem missing_payment_id_response req :
  includes whitelist (ip req) = false ->
  headers req "x-graph-payment-id" = HUndefined ->
  let t := fst (run req) in
  (forall sid,
     newSubgraphDeploymentID (params_id req) = Returned sid ->
     responses t = [rejection "No X-Graph-Payment-ID provided"]
     /\ paid_calls t = [] /\ free_calls t = [])
  /\
  (forall e,
     newSubgraphDeploymentID (params_id req) = Thrown e ->
     responses t = [] /\ snd (run req) = Thrown e).
Proof.
  intros Hw Hp t; subst t. split.
  - intros sid H. rewrite (handler_missing_payment req H Hp Hw).
    repeat split.
  - intros e H. rewrite (handler_throws req H). split; reflexivity.
Qed.

(** C4.  On the free path (deployment ID accepted, no payment header,
    whitelisted source): a state channel header that is a single string
    makes the handler call [addFreeQuery] exactly once with it; a missing
    one and a malformed one are both answered 402
    [Invalid X-Graph-State-Channel-ID provided], without any call. *)
Theorem free_path_state_channel req sid :
  newSubgraphDeploymentID (params_id req) = Returned sid ->
  headers req "x-graph-payment-id" = HUndefined ->
  includes whitelist (ip req) = true ->
  let t := fst (run req) in
  match headers req "x-graph-state-channel-id" with
  | HString s =>
      paid_calls t = [] /\
      exists q, free_calls t = [q] /\ free_stateChannelID q = s
  | HUndefined | HArray _ =>
      responses t = [rejection "Invalid X-Graph-State-Channel-ID provided"]
      /\ paid_calls t = [] /\ free_calls t = []
  end.
Proof.
  intros H Hp Hw t; subst t. rewrite (handler_free req H Hp Hw).
  channels sid req; cbn zeta; try (repeat split; fail).
  settle; (split; [reflexivity|]); eexists; split; reflexivity.
Qed.

(** C9.  With a single-string payment header, the state channel header is
    of no consequence: whatever is put in its place, the run (log, calls,
    response, outcome) is the same, and the state channel rejection does
    not occur. *)
Theorem paid_path_ignores_state_channel req p v :
  headers req "x-graph-payment-id" = HString p ->
  let req' := with_header req "x-graph-state-channel-id" v in
  run req' = run req /\
  forall s, ~ In (Log Info (InvalidStateChannelID s)) (fst (run req')).
Proof.
  intros Hp req'.
  assert (Hp' : headers req' "x-graph-payment-id" = HString p) by exact Hp.
  assert (Heq : run req' = run req).
  { destruct (newSubgraphDeploymentID (params_id req)) as [sid|e] eqn:Hid.
    - rewrite (handler_paid req Hid Hp).
      now rewrite (handler_paid req' (sid := sid) Hid Hp').
    - rewrite (handler_throws req Hid).
      now rewrite (handler_throws req' (e := e) Hid). }
  split; [exact Heq|]. rewrite Heq. intros s.
  destruct (newSubgraphDeploymentID (params_id req)) as [sid|e] eqn:Hid.
  - rewrite (handler_paid req Hid Hp), paid_path_run.
    settle; cbn; intros Hin;
      repeat (destruct Hin as [Hin|Hin]; [discriminate|]); contradiction.
  - rewrite (handler_throws req Hid). intros [].
Qed.

(** *** Content identifier *)

(** What a call to the query processor carries. *)
Lemma processor_call_inv req query cid :
  In (query, cid) (processor_calls (fst (run req))) ->
  query = Body_toString (body req)
  /\ cid = keccak256 (TextEncoder_encode query).
Proof.
  branches req; cbn zeta.
  - channels sid req; try settle; cbn;
      intros Hin; repeat (destruct Hin as [Hin|Hin]; [|try contradiction]);
      inversion Hin; subst; auto.
  - intros [].
  - settle; cbn;
      intros Hin; repeat (destruct Hin as [Hin|Hin]; [|try contradiction]);
      inversion Hin; subst; auto.
  - intros [].
  - intros [].
Qed.

(** C5, as the code has it.  Every call to the query processor carries as
    [query] the string [req.body.toString()], and as [requestCID] the hash
    of the UTF-8 encoding of that string.  The string is the body decoded
    as UTF-8 when [req.body] is a [Buffer] and [[object Object]] when the
    body was not read; the identifier is the hash of the raw body whenever
    the body was read and is well-formed UTF-8. *)
Theorem content_identifier req query cid :
  In (query, cid) (processor_calls (fst (run req))) ->
  query = Body_toString (body req)
  /\ cid = keccak256 (TextEncoder_encode query)
  /\ (forall b, body req = Buffer b ->
                query = Buffer_toString b /\
                (Utf8.well_formed b -> cid = keccak256 b))
  /\ (body req = EmptyObject -> query = Object_toString).
Proof.
  intros Hin. apply processor_call_inv in Hin as (-> & ->).
  split; [reflexivity|]. split; [reflexivity|]. split.
  - intros b ->. split; [reflexivity|]. intros Hb. cbn [Body_toString].
    unfold TextEncoder_encode, Buffer_toString.
    now rewrite encode_decode_well_formed.
  - now intros ->.
Qed.

(** C7, as the code has it.  The identifier handed to the processor is a
    function of [req.body] alone, the same for all requests whose body was
    not read; two bodies that were read, that are well-formed UTF-8 and
    that the hash function tells apart get different identifiers. *)
Theorem content_identifier_determinism req1 req2 cid1 cid2 :
  In cid1 (request_cids (fst (run req1))) ->
  In cid2 (request_cids (fst (run req2))) ->
  (body req1 = body req2 -> cid1 = cid2) /\
  (forall b1 b2,
     body req1 = Buffer b1 -> body req2 = Buffer b2 ->
     Utf8.well_formed b1 -> Utf8.well_formed b2 ->
     keccak256 b1 <> keccak256 b2 -> cid1 <> cid2).
Proof.
  unfold request_cids. intros H1 H2.
  apply in_map_iff in H1 as ([q1 c1] & E1 & H1).
  apply in_map_iff in H2 as ([q2 c2] & E2 & H2).
  cbn in E1, E2. subst c1 c2.
  apply processor_call_inv in H1 as (Hq1 & Hc1).
  apply processor_call_inv in H2 as (Hq2 & Hc2).
  split.
  - intros Hb. rewrite Hc1, Hc2, Hq1, Hq2, Hb. reflexivity.
  - intros b1 b2 B1 B2 W1 W2 Hne. rewrite Hc1, Hc2, Hq1, Hq2, B1, B2.
    cbn [Body_toString]. unfold TextEncoder_encode, Buffer_toString.
    now rewrite !encode_decode_well_formed.
Qed.

(** *** Outcome mapping *)

(** The responses that follow a processor call. *)
Lemma dispatched_response req o :
  outcome_of (fst (run req)) = Some o ->
  responses (fst (run req)) =
  match o with
  | Returned r =>
      if accepts_status (or_default (response_status r) (JNum 200))
      then [success r]
      else [failure (range_error
                       (or_default (response_status r) (JNum 200)))]
  | Thrown e =>
      if accepts_status (or_default (exn_status e) (JNum 500))
      then [failure e]
      else []
  end.
Proof.
  branches req; cbn zeta; try discriminate.
  - channels sid req; cbn zeta; try discriminate.
    settle; cbn; rewrite E; intros [= <-]; rewrite ?A; reflexivity.
  - settle; cbn; rewrite E; intros [= <-]; rewrite ?A; reflexivity.
Qed.

(** C6, as the code has it.  When the processor was called and Node
    accepts the status code to be sent: on a result the one response is
    JSON and carries the result and its status, or 200 when that is unset
    or falsy; on an exception it is JSON and carries [{error: message}]
    and the status of the exception, or 500 when that is unset or falsy.
    When Node refuses the status code of a result, [send] throws inside
    the [try] and the one response is that of the [catch]: 500 with the
    message of the [RangeError]. *)
Theorem outcome_mapping req o :
  outcome_of (fst (run req)) = Some o ->
  match o with
  | Returned r =>
      let s := or_default (response_status r) (JNum 200) in
      responses (fst (run req)) =
      if accepts_status s
      then [mkResponse s "application/json"
                       (ResultPayload (response_result r))]
      else [mkResponse (JNum 500) "application/json"
                       (ErrorPayload (invalid_status_message s))]
  | Thrown e =>
      let s := or_default (exn_status e) (JNum 500) in
      accepts_status s = true ->
      responses (fst (run req)) =
      [mkResponse s "application/json" (ErrorPayload (exn_message e))]
  end.
Proof.
  intros Ho. rewrite (dispatched_response req Ho).
  destruct o as [r|e]; cbn zeta.
  - reflexivity.
  - now intros ->.
Qed.

(** C10.  A status that is set but falsy counts as unset: a result whose
    status is [0] (or [NaN]) is answered 200, an exception whose status is
    [0] (or [NaN]) is answered 500. *)
Theorem falsy_status_defaults req o n :
  outcome_of (fst (run req)) = Some o ->
  truthy n = false ->
  match o with
  | Returned r =>
      response_status r = Some n ->
      map (@status Result) (responses (fst (run req))) = [JNum 200]
  | Thrown e =>
      exn_status e = Some n ->
      map (@status Result) (responses (fst (run req))) = [JNum 500]
  end.
Proof.
  intros Ho Hn. rewrite (dispatched_response req Ho).
  destruct o as [r|e]; intros Hs; unfold or_default;
    rewrite Hs, Hn; reflexivity.
Qed.

(** *** Faults *)

(** C8 on the code.  There are two ways in which the handler sends no
    response and lets an exception escape: the constructor refuses the
    deployment ID, outside of any [try]; or the query processor throws an
    exception whose status code Node refuses, so that [send] throws inside
    the [catch]. *)
Theorem unanswered_requests req :
  (exists e, newSubgraphDeploymentID (params_id req) = Thrown e) \/
  (exists e, outcome_of (fst (run req)) = Some (Thrown e) /\
             accepts_status (or_default (exn_status e) (JNum 500)) = false)
  ->
  responses (fst (run req)) = [] /\ exists e, snd (run req) = Thrown e.
Proof.
  intros [(e & H)|(e & Ho & Ha)].
  - rewrite (handler_throws req H). split; [reflexivity | now exists e].
  - revert Ho. branches req; cbn zeta; try discriminate.
    + channels sid req; cbn zeta; try discriminate.
      settle; cbn; rewrite E; intros Ho; try discriminate Ho;
        injection Ho as Ho; subst; try congruence.
      split; [reflexivity | eexists; reflexivity].
    + settle; cbn; rewrite E; intros Ho; try discriminate Ho;
        injection Ho as Ho; subst; try congruence.
      split; [reflexivity | eexists; reflexivity].
Qed.

(** *** More on the runs of the handler *)

(** The trace of a branch that ends with a response, split at it. *)
Ltac split_last :=
  cbn [fst snd];
  lazymatch goal with
  | |- exists l r, [?a; Send ?x] = _ /\ _ => exists [a], x
  | |- exists l r, [?a; ?b; Send ?x] = _ /\ _ => exists [a; b], x
  | |- exists l r, [?a; ?b; ?c; Send ?x] = _ /\ _ => exists [a; b; c], x
  end; repeat split.

(** When the deployment ID is accepted and the query processor does not
    throw an exception with a status code that Node refuses, the handler
    returns normally, and the last thing it does is to send its only
    response, which is JSON.  This covers the processor throwing any other
    exception, and a result whose status code Node refuses. *)
Theorem response_comes_last req sid :
  newSubgraphDeploymentID (params_id req) = Returned sid ->
  (forall e, outcome_of (fst (run req)) = Some (Thrown e) ->
             accepts_status (or_default (exn_status e) (JNum 500)) = true) ->
  snd (run req) = Returned tt /\
  exists l r, fst (run req) = (l ++ [Send r])%list
              /\ responses l = []
              /\ contentType r = "application/json".
Proof.
  intros H. branches req; try discriminate.
  - channels sid0 req; try (intros _; split; [reflexivity | split_last]).
    settle; cbn; rewrite E; intros Hok;
      try (split; [reflexivity | split_last]).
    specialize (Hok _ eq_refl). congruence.
  - intros _. split; [reflexivity | split_last].
  - settle; cbn; rewrite E; intros Hok;
      try (split; [reflexivity | split_last]).
    specialize (Hok _ eq_refl). congruence.
  - intros _. split; [reflexivity | split_last].
Qed.

(** No run calls the query processor twice, or calls both operations. *)
Theorem at_most_one_processor_call req :
  (List.length (paid_calls (fst (run req)))
   + List.length (free_calls (fst (run req))) <= 1)%nat.
Proof.
  branches req; cbn zeta.
  - channels sid req; try settle; cbn; lia.
  - cbn; lia.
  - settle; cbn; lia.
  - cbn; lia.
  - cbn; lia.
Qed.

(** A response that does not come from the query processor is a 402 with
    one of three messages. *)
Theorem rejections_are_402 req sid :
  newSubgraphDeploymentID (params_id req) = Returned sid ->
  outcome_of (fst (run req)) = None ->
  exists msg,
    responses (fst (run req)) = [rejection msg] /\
    (msg = "Invalid X-Graph-Payment-ID provided"
     \/ msg = "No X-Graph-Payment-ID provided"
     \/ msg = "Invalid X-Graph-State-Channel-ID provided").
Proof.
  intros H. branches req; cbn zeta.
  - channels sid0 req; cbn zeta.
    + intros _. eexists. split; [reflexivity | auto].
    + settle; cbn; intros [=].
    + intros _. eexists. split; [reflexivity | auto].
  - intros _. eexists. split; [reflexivity | auto].
  - settle; cbn; intros [=].
  - intros _. eexists. split; [reflexivity | auto].
  - discriminate.
Qed.

(** Where the arguments of a paid query come from: the deployment ID is
    the one built from the path, the payment ID is the header, the query
    is [req.body.toString()]; and no free query goes with it. *)
Theorem paid_query_provenance req q :
  In q (paid_calls (fst (run req))) ->
  newSubgraphDeploymentID (params_id req)
  = Returned (paid_subgraphDeploymentID q)
  /\ headers req "x-graph-payment-id" = HString (paid_paymentId q)
  /\ paid_query q = Body_toString (body req)
  /\ free_calls (fst (run req)) = [].
Proof.
  branches req; cbn zeta.
  - channels sid req; try settle; cbn; intros [].
  - intros [].
  - settle; cbn; intros [<-|[]]; cbn; auto.
  - intros [].
  - intros [].
Qed.

(** A free query is only ever run for a whitelisted source that offered no
    payment, with the state channel of the header and with
    [req.body.toString()] as query. *)
Theorem free_query_provenance req q :
  In q (free_calls (fst (run req))) ->
  includes whitelist (ip req) = true
  /\ headers req "x-graph-payment-id" = HUndefined
  /\ headers req "x-graph-state-channel-id"
     = HString (free_stateChannelID q)
  /\ newSubgraphDeploymentID (params_id req)
     = Returned (free_subgraphDeploymentID q)
  /\ free_query q = Body_toString (body req)
  /\ paid_calls (fst (run req)) = [].
Proof.
  branches req; cbn zeta.
  - channels sid req; cbn zeta; try (intros []; fail).
    settle; cbn; intros [<-|[]]; cbn; auto 10.
  - intros [].
  - settle; cbn; intros [].
  - intros [].
  - intros [].
Qed.

(** Of [req.headers] the handler reads two entries and no other: with
    [req.body] as it is, changing any other entry changes nothing. *)
Theorem other_headers_ignored req name v :
  name <> "x-graph-payment-id" ->
  name <> "x-graph-state-channel-id" ->
  run (with_header req name v) = run req.
Proof.
  intros Hp Hs. unfold handler, free_path, with_header.
  cbn [headers params_id body ip].
  apply not_eq_sym, String.eqb_neq in Hp, Hs. now rewrite Hp, Hs.
Qed.

(** Something is logged at error level exactly when the [catch] runs:
    when the query processor threw, and then it is the exception; or when
    Node refused the status code of a result, and then it is the
    [RangeError]. *)
Theorem errors_logged req :
  error_logs (fst (run req)) =
  let failed :=
    match paid_calls (fst (run req)) with
    | [] => FailedFreeQuery
    | _ :: _ => FailedPaidQuery
    end in
  match outcome_of (fst (run req)) with
  | Some (Thrown e) => [failed e]
  | Some (Returned r) =>
      let s := or_default (response_status r) (JNum 200) in
      if accepts_status s then []
      else [failed (mkExn None (invalid_status_message s))]
  | None => []
  end.
Proof.
  branches req; cbn zeta; try reflexivity.
  - channels sid req; cbn zeta; try reflexivity.
    settle; cbn; rewrite E, ?A; reflexivity.
  - settle; cbn; rewrite E, ?A; reflexivity.
Qed.

(** The bytes that are hashed are well-formed UTF-8, whatever the body,
    and decode to the query that goes with the identifier. *)
Theorem hashed_bytes_decode_to_query req query cid :
  In (query, cid) (processor_calls (fst (run req))) ->
  cid = keccak256 (TextEncoder_encode query)
  /\ Utf8.well_formed (TextEncoder_encode query)
  /\ Buffer_toString (TextEncoder_encode query) = query.
Proof.
  intros Hin. apply processor_call_inv in Hin as (-> & ->).
  pose proof (Body_toString_scalar (body req)) as Hs.
  split; [reflexivity|]. split.
  - exists (Body_toString (body req)). now split.
  - now apply decode_encode.
Qed.

(** Sending as body the bytes that the handler hashes changes nothing:
    for a body that was read, its re-encoding; for a body that was not,
    the encoding of [[object Object]]. *)
Theorem normalised_body_same_run req :
  run (with_body req
         (Buffer (TextEncoder_encode (Body_toString (body req)))))
  = run req.
Proof.
  unfold handler, free_path, with_body. cbn [headers params_id body ip].
  replace (Body_toString
             (Buffer (TextEncoder_encode (Body_toString (body req)))))
    with (Body_toString (body req)); [reflexivity|].
  symmetry. cbn [Body_toString]. apply decode_encode.
  apply Body_toString_scalar.
Qed.

End ServerFacts.

(* ===================================================================== *)
(** ** The whitelist *)
(* ===================================================================== *)

Section WhitelistFacts.

Variables SubgraphDeploymentID Result : Type.
Variable newSubgraphDeploymentID : string -> Outcome SubgraphDeploymentID.
Variable keccak256 : bytes -> string.
Variable invalid_status_message : JsNumber -> string.
Variable addPaidQuery :
  PaidQuery SubgraphDeploymentID -> Outcome (QueryResponse Result).
Variable addFreeQuery :
  FreeQuery SubgraphDeploymentID -> Outcome (QueryResponse Result).

Local Abbreviation run_with whitelist :=
  (handler newSubgraphDeploymentID keccak256 invalid_status_message
           addPaidQuery addFreeQuery whitelist).

(** The handler depends on the whitelist and on the source address only
    through the answer to "is the address in the whitelist". *)
Theorem whitelist_verdict_only whitelist1 whitelist2 req ip' :
  includes whitelist1 (ip req) = includes whitelist2 ip' ->
  run_with whitelist1 req = run_with whitelist2 (with_ip req ip').
Proof.
  intros H. unfold handler, free_path, with_ip.
  cbn [headers params_id body ip]. now rewrite H.
Qed.

(** When a payment header is present, neither the whitelist nor the source
    address has any influence on the run. *)
Theorem payment_overrides_whitelist whitelist1 whitelist2 req ip' :
  headers req "x-graph-payment-id" <> HUndefined ->
  run_with whitelist1 req = run_with whitelist2 (with_ip req ip').
Proof.
  intros H. unfold handler, with_ip. cbn [headers params_id body ip].
  destruct (headers req "x-graph-payment-id") as [|p|l];
    [contradiction| |reflexivity].
  cbn [string_or_undefined].
  destruct (includes whitelist1 (ip req)), (includes whitelist2 ip');
    reflexivity.
Qed.

End WhitelistFacts.

(* ===================================================================== *)
(** ** The logger stream *)
(* ===================================================================== *)

Section LoggerStreamFacts.
Import LoggerStream.
Local Open Scope list_scope.

Lemma trimStart_split s :
  exists pre, s = pre ++ trimStart s /\ forallb is_whitespace pre = true.
Proof.
  induction s as [|c s (pre & Hs & Hpre)]; [now exists []|].
  cbn [trimStart]. destruct (is_whitespace c) eqn:Hc.
  - exists (c :: pre). cbn. rewrite Hc, Hpre. split; [now f_equal|reflexivity].
  - now exists [].
Qed.

Lemma trimStart_head s c :
  hd_error (trimStart s) = Some c -> is_whitespace c = false.
Proof.
  induction s as [|d s IH]; [discriminate|].
  cbn [trimStart]. destruct (is_whitespace d) eqn:Hd; [exact IH|].
  now intros [= <-].
Qed.

Lemma forallb_rev (p : Utf8.codepoint -> bool) l :
  forallb p l = true -> forallb p (rev l) = true.
Proof.
  rewrite !forallb_forall. intros H x Hx. apply H. now apply in_rev.
Qed.

(** What [trim] keeps and what it drops. *)
Lemma trim_split s :
  exists pre post,
    s = pre ++ trim s ++ post
    /\ forallb is_whitespace pre = true
    /\ forallb is_whitespace post = true
    /\ (forall c, hd_error (trim s) = Some c -> is_whitespace c = false)
    /\ (forall c, hd_error (rev (trim s)) = Some c ->
                  is_whitespace c = false).
Proof.
  destruct (trimStart_split s) as (pre & Hs & Hpre).
  destruct (trimStart_split (rev (trimStart s))) as (q & Hq & Hwq).
  assert (Hm : trimStart s = trim s ++ rev q).
  { unfold trim, trimEnd. rewrite <- rev_app_distr, <- Hq.
    now rewrite rev_involutive. }
  exists pre, (rev q). repeat split.
  - now rewrite <- Hm.
  - exact Hpre.
  - now apply forallb_rev.
  - intros c Hc. apply (trimStart_head s). rewrite Hm.
    destruct (trim s); [discriminate | exact Hc].
  - intros c. unfold trim, trimEnd. rewrite rev_involutive.
    apply trimStart_head.
Qed.

(** One chunk written to the stream is one debug message, then [next];
    the message is the text of the chunk without the white space around
    it, such as the newline that ends a log line. *)
Theorem write_logs_trimmed_chunk chunk :
  exists pre message post,
    _write chunk = [Debug message; Next]
    /\ Buffer_toString chunk = pre ++ message ++ post
    /\ forallb is_whitespace pre = true
    /\ forallb is_whitespace post = true
    /\ (forall c, hd_error message = Some c -> is_whitespace c = false)
    /\ (forall c, hd_error (rev message) = Some c ->
                  is_whitespace c = false).
Proof.
  destruct (trim_split (Buffer_toString chunk))
    as (pre & post & H1 & H2 & H3 & H4 & H5).
  exists pre, (trim (Buffer_toString chunk)), post.
  repeat split; assumption.
Qed.

(** A chunk of white space only, and no other, is logged as the empty
    message. *)
Theorem blank_chunk_logs_empty_message chunk :
  forallb is_whitespace (Buffer_toString chunk) = true
  <-> _write chunk = [Debug []; Next].
Proof.
  unfold _write. split.
  - intros H. enough (E : trim (Buffer_toString chunk) = []) by now rewrite E.
    destruct (trim_split (Buffer_toString chunk))
      as (pre & post & Hs & _ & _ & Hh & _).
    destruct (trim (Buffer_toString chunk)) as [|c m]; [reflexivity|].
    specialize (Hh c eq_refl). rewrite Hs in H.
    rewrite forallb_app in H. apply andb_prop in H as (_ & H).
    cbn in H. rewrite Hh in H. discriminate.
  - intros [= E].
    destruct (trim_split (Buffer_toString chunk))
      as (pre & post & Hs & Hpre & Hpost & _).
    rewrite Hs, E, forallb_app. cbn [app]. now rewrite Hpre, Hpost.
Qed.

End LoggerStreamFacts.

(* ===================================================================== *)
(** ** The shape of a Keccak-256 digest *)
(* ===================================================================== *)

Section KeccakFacts.
Import Keccak.
Local Open Scope list_scope.

Lemma length_round A rc : List.length (round A rc) = 25%nat.
Proof. reflexivity. Qed.

Lemma length_keccak_f A : List.length (keccak_f A) = 25%nat.
Proof.
  unfold keccak_f, round_constants. cbn [fold_left]. apply length_round.
Qed.

Lemma length_absorb n A bs :
  List.length A = 25%nat -> List.length (absorb n A bs) = 25%nat.
Proof.
  revert A bs. induction n as [|n IH]; intros A bs HA; [exact HA|].
  cbn [absorb]. apply IH, length_keccak_f.
Qed.

Lemma length_digest m : List.length (digest m) = 32%nat.
Proof.
  unfold digest.
  pose proof (@length_absorb (List.length (pad m) / rate)%nat
                (repeat 0%N 25) (pad m) eq_refl) as H.
  destruct (absorb _ _ _) as [|a0 [|a1 [|a2 [|a3 A]]]]; try discriminate.
  reflexivity.
Qed.

Lemma hex_digit_In n :
  (n < 16)%N -> In (hex_digit n) (list_ascii_of_string "0123456789abcdef").
Proof.
  intros Hn. unfold hex_digit. apply nth_In. cbn. lia.
Qed.

Lemma hexlify_shape bs :
  String.length (hexlify bs) = (2 * List.length bs)%nat
  /\ Forall (fun c => In c (list_ascii_of_string "0123456789abcdef"))
            (list_ascii_of_string (hexlify bs)).
Proof.
  induction bs as [|b bs (IHl & IHc)]; [split; [reflexivity|constructor]|].
  cbn [hexlify String.length list_ascii_of_string List.length]. split.
  - rewrite IHl. lia.
  - pose proof (Byte.to_N_bounded b).
    constructor; [|constructor; [|exact IHc]]; apply hex_digit_In.
    + apply N.Div0.div_lt_upper_bound. lia.
    + apply N.mod_lt. discriminate.
Qed.

(** The identifier has a fixed size: [0x] and 64 lower case hex digits,
    whatever is hashed. *)
Theorem keccak256_fixed_size data :
  exists hex,
    keccak256 data = ("0x" ++ hex)%string
    /\ String.length hex = 64%nat
    /\ Forall (fun c => In c (list_ascii_of_string "0123456789abcdef"))
              (list_ascii_of_string hex).
Proof.
  exists (hexlify (digest data)). split; [reflexivity|].
  destruct (hexlify_shape (digest data)) as (Hl & Hc).
  rewrite length_digest in Hl. split; assumption.
Qed.

End KeccakFacts.


(* ===================================================================== *)
(** ** The statements on the concrete deployment *)
(* ===================================================================== *)

Section OnTheDeployment.
Import Deployment.

Local Abbreviation pools := (list_byte_of_string "{ pools { id } }").
Local Abbreviation tokens := (list_byte_of_string "{ tokens { id } }").

(** A JSON body written in ASCII is well-formed UTF-8. *)
Lemma pools_well_formed : Utf8.well_formed pools.
Proof.
  exists (Utf8.decode pools). split.
  - repeat constructor; left; reflexivity.
  - reflexivity.
Defined.

Lemma tokens_well_formed : Utf8.well_formed tokens.
Proof.
  exists (Utf8.decode tokens). split.
  - repeat constructor; left; reflexivity.
  - reflexivity.
Defined.

(** The stand-in constructor on the two IDs in use. *)
Example subgraph_accepted :
  newSubgraphDeploymentID subgraph = Returned subgraph.
Proof. reflexivity. Qed.

Example malformed_hash_refused :
  newSubgraphDeploymentID malformed_hash = Thrown refusal.
Proof. reflexivity. Qed.

(** *** Admission *)

(** A trusted source that pays is charged. *)
Lemma path_selection_witness :
  let t := fst (serve answers answers trusted_paying) in
  takes_paid_path t /\ free_calls t = [] /\
  exists q, paid_calls t = [q] /\ paid_paymentId q = "pay-7".
Proof.
  apply (proj1 (@path_selection _ _ newSubgraphDeploymentID
                  Keccak.keccak256 invalid_status_message
                  answers answers whitelist
                  trusted_paying subgraph eq_refl)).
  reflexivity.
Defined.

(** C1 as stated fails: a request without payment header from outside the
    whitelist does not take the free path, even with a state channel. *)
Lemma unpaid_request_not_on_free_path :
  headers unpaid "x-graph-payment-id" = HUndefined /\
  headers unpaid "x-graph-state-channel-id" = HString "sc-1" /\
  ~ takes_free_path (fst (serve answers answers unpaid)) /\
  free_calls (fst (serve answers answers unpaid)) = [].
Proof.
  repeat split.
  intros (s & Hin). vm_compute in Hin.
  destruct Hin as [Hin|[Hin|[]]]; discriminate.
Qed.


(** An unpaid request, and the same for a deployment ID that is
    refused. *)
Lemma missing_payment_id_response_witness :
  (let t := fst (serve answers answers unpaid) in
   responses t = [mkResponse (JNum 402) "application/json"
                    (ErrorPayload "No X-Graph-Payment-ID provided")]
   /\ paid_calls t = [] /\ free_calls t = [])
  /\
  (responses (fst (serve answers answers (refused unpaid))) = []
   /\ snd (serve answers answers (refused unpaid))
      = Thrown refusal).
Proof.
  split.
  - exact (proj1 (@missing_payment_id_response _ _ newSubgraphDeploymentID
                    Keccak.keccak256 invalid_status_message
                    answers answers
                    whitelist unpaid eq_refl eq_refl)
                 subgraph eq_refl).
  - exact (proj2 (@missing_payment_id_response _ _ newSubgraphDeploymentID
                    Keccak.keccak256 invalid_status_message
                    answers answers
                    whitelist (refused unpaid) eq_refl eq_refl)
                 _ eq_refl).
Defined.

(** Scenario A, and the same source without state channel. *)
Lemma free_path_state_channel_witness :
  (let t := fst (serve answers answers scenarioA) in
   paid_calls t = [] /\
   exists q, free_calls t = [q] /\ free_stateChannelID q = "sc-1")
  /\
  (let t := fst (serve answers answers trusted_bare) in
   responses t = [mkResponse (JNum 402) "application/json"
                    (ErrorPayload "Invalid X-Graph-State-Channel-ID provided")]
   /\ paid_calls t = [] /\ free_calls t = []).
Proof.
  split.
  - exact (@free_path_state_channel _ _ newSubgraphDeploymentID
             Keccak.keccak256 invalid_status_message
             answers answers whitelist
             scenarioA subgraph eq_refl eq_refl eq_refl).
  - exact (@free_path_state_channel _ _ newSubgraphDeploymentID
             Keccak.keccak256 invalid_status_message
             answers answers whitelist
             trusted_bare subgraph eq_refl eq_refl eq_refl).
Defined.

(** A paying request with the state channel header sent twice. *)
Lemma paid_path_ignores_state_channel_witness :
  let req' := with_header trusted_paying "x-graph-state-channel-id"
                          (HArray ["sc-1"; "sc-2"]) in
  serve answers answers req' = serve answers answers trusted_paying /\
  forall s, ~ In (Log Info (InvalidStateChannelID s))
                 (fst (serve answers answers req')).
Proof.
  apply (@paid_path_ignores_state_channel _ _ newSubgraphDeploymentID
           Keccak.keccak256 invalid_status_message
           answers answers whitelist
           trusted_paying "pay-7").
  reflexivity.
Defined.

(** *** Content identifier *)

(** Scenario B: the identifier is the hash of the body. *)
Lemma content_identifier_witness :
  exists query cid,
    In (query, cid)
       (processor_calls (fst (serve rate_limits answers scenarioB)))
    /\ query = Buffer_toString pools
    /\ cid = Keccak.keccak256 pools.
Proof.
  eexists. eexists.
  assert (Hin : In (Buffer_toString pools,
                    Keccak.keccak256
                      (TextEncoder_encode (Buffer_toString pools)))
                   (processor_calls
                      (fst (serve rate_limits answers scenarioB)))).
  { left. reflexivity. }
  split; [exact Hin|].
  destruct (@content_identifier _ _ newSubgraphDeploymentID
              Keccak.keccak256 invalid_status_message
              rate_limits answers whitelist
              scenarioB _ _ Hin)
    as (_ & _ & Hbuf & _).
  destruct (Hbuf pools eq_refl) as (Hq & Hcid).
  split; [reflexivity | exact (Hcid pools_well_formed)].
Defined.

(** C5 as stated fails: a body that is not UTF-8 is hashed after its
    decoding, not as it came; and for a body that was not read, what is
    hashed is [[object Object]]. *)
Lemma ill_formed_body_not_hashed_raw :
  (exists query cid,
     In (query, cid)
        (processor_calls
           (fst (serve answers answers (paying_with_body (Buffer [xff])))))
     /\ cid = Keccak.keccak256 [xef; xbf; xbd]
     /\ cid <> Keccak.keccak256 [xff])
  /\
  (exists query cid,
     In (query, cid)
        (processor_calls
           (fst (serve answers answers (paying_with_body EmptyObject))))
     /\ cid = Keccak.keccak256 (list_byte_of_string "[object Object]")).
Proof.
  split.
  - eexists. eexists. split; [left; reflexivity|].
    split; [reflexivity|]. vm_compute. discriminate.
  - eexists. eexists. split; [left; reflexivity|]. reflexivity.
Qed.

(** Scenarios A and B have different identifiers. *)
Lemma content_identifier_determinism_witness :
  let cidA :=
    "0xd12c3b822721916ea18ac08425f441c67eac0ef7ea777e8e9e159dbaecce5370" in
  let cidB :=
    "0xf5c8597268cdab1e1c6e97b3ac8d42b9873e89f2a53c1c32e84e26d8766071b4" in
  In cidA (request_cids (fst (serve answers answers scenarioA))) /\
  In cidB (request_cids (fst (serve answers answers scenarioB))) /\
  cidA <> cidB.
Proof.
  intros cidA cidB.
  assert (HA : In cidA (request_cids (fst (serve answers answers scenarioA))))
    by (left; vm_compute; reflexivity).
  assert (HB : In cidB (request_cids (fst (serve answers answers scenarioB))))
    by (left; vm_compute; reflexivity).
  split; [exact HA|]. split; [exact HB|].
  apply (proj2 (@content_identifier_determinism _ _ newSubgraphDeploymentID
                  Keccak.keccak256 invalid_status_message
                  answers answers
                  whitelist scenarioA scenarioB cidA cidB HA HB)
           tokens pools eq_refl eq_refl).
  - exact tokens_well_formed.
  - exact pools_well_formed.
  - vm_compute. discriminate.
Defined.

(** C7 as stated fails: two different bodies that the hash function tells
    apart, with one and the same identifier. *)
Lemma ill_formed_bodies_collide :
  [xff] <> [xfe] /\
  Keccak.keccak256 [xff] <> Keccak.keccak256 [xfe] /\
  request_cids
    (fst (serve answers answers (paying_with_body (Buffer [xff]))))
  = request_cids
      (fst (serve answers answers (paying_with_body (Buffer [xfe]))))
  /\ request_cids
       (fst (serve answers answers (paying_with_body (Buffer [xff]))))
     = [Keccak.keccak256 [xef; xbf; xbd]].
Proof.
  split; [discriminate|].
  split; [vm_compute; discriminate|].
  split; reflexivity.
Qed.

(** *** Outcome mapping *)

(** Scenario B, and a result with status 99. *)
Lemma outcome_mapping_witness :
  responses (fst (serve rate_limits answers scenarioB)) =
  [mkResponse (JNum 429) "application/json" (ErrorPayload "rate limited")]
  /\
  map (@status Result)
      (responses (fst (serve (answers_with 99) answers scenarioB)))
  = [JNum 500].
Proof.
  split.
  - exact (@outcome_mapping _ _ newSubgraphDeploymentID
             Keccak.keccak256 invalid_status_message
             rate_limits answers whitelist
             scenarioB _ eq_refl eq_refl).
  - exact (f_equal (map (@status Result))
             (@outcome_mapping _ _ newSubgraphDeploymentID
                Keccak.keccak256 invalid_status_message
                (answers_with 99) answers whitelist
                scenarioB _ eq_refl)).
Defined.

(** C6 as stated fails: status [0] is set, and is not the status of the
    response; status [99] is set, and is not the status of the response
    either. *)
Lemma zero_status_not_passed_through :
  (exists r,
     dispatched answers_zero answers
       (fst (serve answers_zero answers scenarioB)) = Some (Returned r)
     /\ response_status r = Some (JNum 0)
     /\ map (@status Result)
            (responses (fst (serve answers_zero answers scenarioB)))
        = [JNum 200])
  /\
  (exists r,
     dispatched (answers_with 99) answers
       (fst (serve (answers_with 99) answers scenarioB)) = Some (Returned r)
     /\ response_status r = Some (JNum 99)
     /\ map (@status Result)
            (responses (fst (serve (answers_with 99) answers scenarioB)))
        = [JNum 500]).
Proof.
  split; eexists; (split; [reflexivity|]); split; reflexivity.
Qed.

Lemma falsy_status_defaults_witness :
  map (@status Result)
      (responses (fst (serve answers_zero answers scenarioB))) = [JNum 200]
  /\
  map (@status Result)
      (responses (fst (serve answers fails_zero scenarioA))) = [JNum 500].
Proof.
  split.
  - exact (@falsy_status_defaults _ _ newSubgraphDeploymentID
             Keccak.keccak256 invalid_status_message
             answers_zero answers whitelist
             scenarioB _ (JNum 0) eq_refl eq_refl eq_refl).
  - exact (@falsy_status_defaults _ _ newSubgraphDeploymentID
             Keccak.keccak256 invalid_status_message
             answers fails_zero whitelist
             scenarioA _ (JNum 0) eq_refl eq_refl eq_refl).
Defined.

(** *** Faults *)

(** Scenario B for a deployment ID that is refused, and scenario B with a
    processor that fails with status 99: no response, and an exception
    out of the handler. *)
Lemma unanswered_requests_witness :
  (responses (fst (serve answers answers (refused scenarioB))) = []
   /\ exists e, snd (serve answers answers (refused scenarioB)) = Thrown e)
  /\
  (responses (fst (serve (fails_with 99) answers scenarioB)) = []
   /\ exists e, snd (serve (fails_with 99) answers scenarioB) = Thrown e).
Proof.
  split.
  - apply (@unanswered_requests _ _ newSubgraphDeploymentID
             Keccak.keccak256 invalid_status_message
             answers answers whitelist
             (refused scenarioB)).
    left. eexists. reflexivity.
  - apply (@unanswered_requests _ _ newSubgraphDeploymentID
             Keccak.keccak256 invalid_status_message
             (fails_with 99) answers whitelist
             scenarioB).
    right. eexists. split; reflexivity.
Defined.

(** *** The scenarios of the specification *)

Example scenario_A :
  serve answers answers scenarioA =
  ([Log Info (ReceivedFreeQuery subgraph);
    AddFreeQuery
      (mkFreeQuery subgraph "sc-1" (Buffer_toString tokens)
         (Keccak.keccak256 tokens));
    Send (mkResponse (JNum 200) "application/json"
                     (ResultPayload "{data: []}"))],
   Returned tt).
Proof. vm_compute. reflexivity. Qed.

Example scenario_B :
  serve rate_limits answers scenarioB =
  ([Log Info (ReceivedPaidQuery subgraph "pay-42");
    AddPaidQuery
      (mkPaidQuery subgraph "pay-42" (Buffer_toString pools)
         (Keccak.keccak256 pools));
    Log Error (FailedPaidQuery (mkExn (Some (JNum 429)) "rate limited"));
    Send (mkResponse (JNum 429) "application/json"
                     (ErrorPayload "rate limited"))],
   Returned tt).
Proof. vm_compute. reflexivity. Qed.

Example scenario_C :
  serve answers answers scenarioC =
  ([Log Info (InvalidPaymentID subgraph);
    Send (mkResponse (JNum 402) "application/json"
                     (ErrorPayload "Invalid X-Graph-Payment-ID provided"))],
   Returned tt).
Proof. vm_compute. reflexivity. Qed.

(** *** More on the runs *)

(** The processor refuses scenario B; the handler answers and returns. *)
Lemma response_comes_last_witness :
  snd (serve rate_limits answers scenarioB) = Returned tt /\
  exists l r, fst (serve rate_limits answers scenarioB) = (l ++ [Send r])%list
              /\ responses l = []
              /\ contentType r = "application/json".
Proof.
  apply (@response_comes_last _ _ newSubgraphDeploymentID
           Keccak.keccak256 invalid_status_message
           rate_limits answers whitelist
           scenarioB subgraph eq_refl).
  intros e [= <-]. reflexivity.
Defined.

Lemma rejections_are_402_witness :
  exists msg,
    responses (fst (serve answers answers unpaid))
    = [mkResponse (JNum 402) "application/json" (ErrorPayload msg)] /\
    (msg = "Invalid X-Graph-Payment-ID provided"
     \/ msg = "No X-Graph-Payment-ID provided"
     \/ msg = "Invalid X-Graph-State-Channel-ID provided").
Proof.
  exact (@rejections_are_402 _ _ newSubgraphDeploymentID
           Keccak.keccak256 invalid_status_message
           answers answers whitelist unpaid
           subgraph eq_refl eq_refl).
Defined.

(** A paid query for a body that was not read. *)
Lemma paid_query_provenance_witness :
  let req := paying_with_body EmptyObject in
  let q := mkPaidQuery subgraph "pay-42" Object_toString
             (Keccak.keccak256 (list_byte_of_string "[object Object]")) in
  In q (paid_calls (fst (serve answers answers req)))
  /\ newSubgraphDeploymentID (params_id req) = Returned subgraph
  /\ headers req "x-graph-payment-id" = HString "pay-42"
  /\ paid_query q = Body_toString (body req)
  /\ free_calls (fst (serve answers answers req)) = [].
Proof.
  intros req q.
  assert (Hin : In q (paid_calls (fst (serve answers answers req))))
    by (left; vm_compute; reflexivity).
  split; [exact Hin|].
  exact (@paid_query_provenance _ _ newSubgraphDeploymentID
           Keccak.keccak256 invalid_status_message
           answers answers whitelist req q Hin).
Defined.

Lemma free_query_provenance_witness :
  let q := mkFreeQuery subgraph "sc-1" (Buffer_toString tokens)
             (Keccak.keccak256 tokens) in
  In q (free_calls (fst (serve answers answers scenarioA)))
  /\ includes whitelist (ip scenarioA) = true
  /\ headers scenarioA "x-graph-payment-id" = HUndefined
  /\ headers scenarioA "x-graph-state-channel-id" = HString "sc-1"
  /\ newSubgraphDeploymentID (params_id scenarioA) = Returned subgraph
  /\ free_query q = Body_toString (body scenarioA)
  /\ paid_calls (fst (serve answers answers scenarioA)) = [].
Proof.
  intros q.
  assert (Hin : In q (free_calls (fst (serve answers answers scenarioA))))
    by (left; vm_compute; reflexivity).
  split; [exact Hin|].
  exact (@free_query_provenance _ _ newSubgraphDeploymentID
           Keccak.keccak256 invalid_status_message
           answers answers whitelist
           scenarioA q Hin).
Defined.

Lemma other_headers_ignored_witness :
  serve answers answers
        (with_header scenarioA "user-agent" (HString "curl/8.5.0"))
  = serve answers answers scenarioA.
Proof.
  apply (@other_headers_ignored _ _ newSubgraphDeploymentID
           Keccak.keccak256 invalid_status_message
           answers answers whitelist
           scenarioA "user-agent");
    discriminate.
Defined.

(** A body that is not UTF-8: what is hashed is, and decodes to the
    query. *)
Lemma hashed_bytes_decode_to_query_witness :
  let req := paying_with_body (Buffer [xff]) in
  let query := [0xFFFD%N] in
  let cid := Keccak.keccak256 [xef; xbf; xbd] in
  In (query, cid) (processor_calls (fst (serve answers answers req)))
  /\ cid = Keccak.keccak256 (TextEncoder_encode query)
  /\ Utf8.well_formed (TextEncoder_encode query)
  /\ Buffer_toString (TextEncoder_encode query) = query.
Proof.
  intros req query cid.
  assert (Hin : In (query, cid)
                   (processor_calls (fst (serve answers answers req))))
    by (left; vm_compute; reflexivity).
  split; [exact Hin|].
  exact (@hashed_bytes_decode_to_query _ _ newSubgraphDeploymentID
           Keccak.keccak256 invalid_status_message
           answers answers whitelist
           req query cid Hin).
Defined.

Lemma TextEncoder_round_trip_witness :
  Buffer_toString (TextEncoder_encode [0x41; 0xE9; 0x20AC; 0x1F600]%N)
  = [0x41; 0xE9; 0x20AC; 0x1F600]%N.
Proof.
  apply TextEncoder_round_trip.
  repeat constructor; unfold Utf8.scalar; lia.
Defined.

(** Another whitelist that also trusts the source. *)
Lemma whitelist_verdict_only_witness :
  serve answers answers scenarioA
  = handler newSubgraphDeploymentID Keccak.keccak256 invalid_status_message
            answers answers
            ["192.168.1.1"; "10.9.9.9"] (with_ip scenarioA "10.9.9.9").
Proof.
  apply (@whitelist_verdict_only _ _ newSubgraphDeploymentID
           Keccak.keccak256 invalid_status_message
           answers answers whitelist
           ["192.168.1.1"; "10.9.9.9"] scenarioA "10.9.9.9").
  reflexivity.
Defined.

(** Scenario B from a trusted address, and with no whitelist at all. *)
Lemma payment_overrides_whitelist_witness :
  handler newSubgraphDeploymentID Keccak.keccak256 invalid_status_message
          rate_limits answers [] scenarioB
  = serve rate_limits answers (with_ip scenarioB "10.0.0.7").
Proof.
  apply (@payment_overrides_whitelist _ _ newSubgraphDeploymentID
           Keccak.keccak256 invalid_status_message
           rate_limits answers []
           whitelist scenarioB "10.0.0.7").
  discriminate.
Defined.

End OnTheDeployment.
